(** * PDF Compressor: the helper locator and the job runner of
    [pdf_compressor.py], embedded in Rocq.

    The program is a Tk front-end around Ghostscript.  Its core is the class
    [PDFCompressorApp]: [find_ghostscript] looks for the executable,
    [start_compression_thread] validates a job and spawns the worker,
    [run_compression] runs the external process and posts one callback,
    [on_compression_success] and [on_compression_error] render the outcome.

    Conventions of the embedding:
    - a Python [str] is a Rocq [string] holding its UTF-8 encoding, a Python
      [bytes] is a [list byte];
    - a Python [float] is a primitive binary64 [float];
    - everything the program reads from outside (the platform name, the
      environment, [os.path], [os.walk], [subprocess], the file dialogs) is
      a field of a [Host] record;
    - the methods are written in a small state-and-exception monad [Py] over
      the attributes of the application object and a chronological trace of
      the effects that leave the program (processes launched, dialogs shown,
      the worker thread started, callbacks posted with [root.after]). *)

From Stdlib Require Import ZArith NArith List Bool String Ascii Lia Floats.
From Stdlib Require Import Strings.Byte DecimalString.
Import ListNotations.

Open Scope list_scope.
Open Scope string_scope.

(** ** Python values *)

Definition bytes := list byte.

(** [None] or a [str], as an element of an argument vector. *)
Definition pyarg := option string.

(** The line feed written [\n] in the source. *)
Definition LF : string := String (ascii_of_nat 10) "".

(** The exception classes the program meets.  All of them derive from
    [Exception]; the only two a handler names are [CalledProcessError] and
    [FileNotFoundError], neither of which has a subclass. *)
Inductive exc_class :=
| CalledProcessError
| FileNotFoundError
| PermissionError
| OSError
| UnicodeDecodeError
| ZeroDivisionError
| TypeError
| ValueError.

Definition exc_class_eqb (a b : exc_class) : bool :=
  match a, b with
  | CalledProcessError, CalledProcessError
  | FileNotFoundError, FileNotFoundError
  | PermissionError, PermissionError
  | OSError, OSError
  | UnicodeDecodeError, UnicodeDecodeError
  | ZeroDivisionError, ZeroDivisionError
  | TypeError, TypeError
  | ValueError, ValueError => true
  | _, _ => false
  end.

(** An exception object: its class, the text [str(e)] gives, and the
    [stderr] attribute ([CalledProcessError] only, empty otherwise). *)
Record py_exception := mk_exception {
  exc_type : exc_class;
  exc_str : string;
  exc_stderr : bytes
}.

(** The result of evaluating a Python expression. *)
Inductive outcome (A : Type) :=
| Return (a : A)
| Raise (e : py_exception).
Arguments Return {A} a.
Arguments Raise {A} e.

Definition obind {A B} (m : outcome A) (k : A -> outcome B) : outcome B :=
  match m with
  | Return a => k a
  | Raise e => Raise e
  end.

(** ** [bytes.strip()] *)

(** The bytes [bytes.strip] removes: space, [\t], [\n], [\v], [\f], [\r]. *)
Definition is_space (b : byte) : bool :=
  let c := Byte.to_N b in
  (N.eqb c 32 || (N.leb 9 c && N.leb c 13))%bool.

Fixpoint bytes_lstrip (s : bytes) : bytes :=
  match s with
  | [] => []
  | b :: r => if is_space b then bytes_lstrip r else s
  end.

Definition bytes_rstrip (s : bytes) : bytes := rev (bytes_lstrip (rev s)).

Definition bytes_strip (s : bytes) : bytes := bytes_rstrip (bytes_lstrip s).

(** ** [bytes.decode('utf-8', errors)] *)

Inductive error_handler := Strict | Ignore | Replace.

(** What the decoder finds at the head of the input. *)
Inductive utf8_step_result :=
| Utf8Char (n : nat)                 (* a well-formed sequence of [n] bytes *)
| Utf8InvalidStart                   (* one byte that cannot start a sequence *)
| Utf8InvalidContinuation (n : nat)  (* [n] bytes, then a byte that cannot follow *)
| Utf8UnexpectedEnd.                 (* a sequence cut off by the end of input *)

Definition is_continuation (c : N) : bool := (N.leb 0x80 c && N.ltb c 0xC0)%bool.

(** One round of the decoder's loop: lead byte ranges [00-7F], [C2-DF],
    [E0-EF], [F0-F4]; overlong forms, surrogates and code points above
    [10FFFF] are refused at the second byte. *)
Definition utf8_step (s : list N) : utf8_step_result :=
  match s with
  | [] => Utf8UnexpectedEnd
  | ch :: r1 =>
    if N.ltb ch 0x80 then Utf8Char 1
    else if N.ltb ch 0xC2 then Utf8InvalidStart
    else if N.ltb ch 0xE0 then
      match r1 with
      | [] => Utf8UnexpectedEnd
      | ch2 :: _ =>
        if is_continuation ch2 then Utf8Char 2 else Utf8InvalidContinuation 1
      end
    else if N.ltb ch 0xF0 then
      match r1 with
      | [] => Utf8UnexpectedEnd
      | ch2 :: r2 =>
        if (negb (is_continuation ch2)
            || (if N.ltb ch2 0xA0 then N.eqb ch 0xE0 else N.eqb ch 0xED))%bool
        then Utf8InvalidContinuation 1
        else match r2 with
             | [] => Utf8UnexpectedEnd
             | ch3 :: _ =>
               if is_continuation ch3 then Utf8Char 3
               else Utf8InvalidContinuation 2
             end
      end
    else if N.ltb ch 0xF5 then
      match r1 with
      | [] => Utf8UnexpectedEnd
      | ch2 :: r2 =>
        if (negb (is_continuation ch2)
            || (if N.ltb ch2 0x90 then N.eqb ch 0xF0 else N.eqb ch 0xF4))%bool
        then Utf8InvalidContinuation 1
        else match r2 with
             | [] => Utf8UnexpectedEnd
             | ch3 :: r3 =>
               if negb (is_continuation ch3) then Utf8InvalidContinuation 2
               else match r3 with
                    | [] => Utf8UnexpectedEnd
                    | ch4 :: _ =>
                      if is_continuation ch4 then Utf8Char 4
                      else Utf8InvalidContinuation 3
                    end
             end
      end
    else Utf8InvalidStart
  end.

Definition hex_digit (n : N) : ascii :=
  ascii_of_N (if N.ltb n 10 then 48 + n else 87 + n).

Definition hex_byte (b : byte) : string :=
  let c := Byte.to_N b in
  String (hex_digit (N.div c 16)) (String (hex_digit (N.modulo c 16)) "").

Definition str_of_nat (n : nat) : string := NilZero.string_of_uint (Nat.to_uint n).

(** [UnicodeDecodeError('utf-8', object, start, stop, reason)]; [s] is the
    input from [start] on. *)
Definition unicode_decode_error (s : bytes) (start len : nat) (reason : string)
  : py_exception :=
  let text :=
    match len with
    | 1%nat =>
      "'utf-8' codec can't decode byte 0x" ++ hex_byte (hd x00 s)
      ++ " in position " ++ str_of_nat start ++ ": " ++ reason
    | _ =>
      "'utf-8' codec can't decode bytes in position " ++ str_of_nat start
      ++ "-" ++ str_of_nat (start + len - 1) ++ ": " ++ reason
    end in
  mk_exception UnicodeDecodeError text [].

(** U+FFFD, the replacement character, in UTF-8. *)
Definition replacement_character : string :=
  string_of_list_byte [xef; xbf; xbd].

(** The decoding loop.  A well-formed sequence is copied; on an ill-formed
    one [Strict] raises, [Ignore] drops the offending bytes and [Replace]
    puts U+FFFD in their place.  Every round consumes at least one byte, so
    [length s] rounds are enough. *)
Fixpoint utf8_decode_loop (fuel : nat) (errors : error_handler)
         (pos : nat) (s : bytes) : outcome string :=
  match fuel, s with
  | O, _ | _, [] => Return ""
  | S fuel', _ :: _ =>
    let '(n, err) :=
      match utf8_step (map Byte.to_N s) with
      | Utf8Char n => (n, None)
      | Utf8InvalidStart => (1%nat, Some "invalid start byte")
      | Utf8InvalidContinuation n => (n, Some "invalid continuation byte")
      | Utf8UnexpectedEnd => (List.length s, Some "unexpected end of data")
      end in
    let rest := utf8_decode_loop fuel' errors (pos + n) (skipn n s) in
    match err, errors with
    | None, _ =>
      obind rest (fun r => Return (string_of_list_byte (firstn n s) ++ r))
    | Some reason, Strict => Raise (unicode_decode_error s pos n reason)
    | Some _, Ignore => rest
    | Some _, Replace => obind rest (fun r => Return (replacement_character ++ r))
    end
  end.

Definition bytes_decode (errors : error_handler) (s : bytes) : outcome string :=
  utf8_decode_loop (List.length s) errors 0 s.

(** ** Floats: [int / int], [float / float] and [format(x, '.Nf')] *)

Open Scope Z_scope.

(** [float(n)]: the binary64 value nearest to [n], ties to even. *)
Definition float_of_Z (n : Z) : float :=
  SF2Prim (binary_normalize prec emax n 0 false).

Definition zero_division (text : string) : py_exception :=
  mk_exception ZeroDivisionError text [].

(** [a / b] on two [int]s.  The program only divides a file size by
    [1024 * 1024]: for a power of two as divisor the correctly rounded
    quotient Python computes is [float(a) / float(b)]. *)
Definition int_truediv (a b : Z) : outcome float :=
  if b =? 0 then Raise (zero_division "division by zero")
  else Return (float_of_Z a / float_of_Z b)%float.

(** [x / y] on two [float]s: Python raises where IEEE 754 gives an infinity
    or a NaN. *)
Definition float_truediv (x y : float) : outcome float :=
  if PrimFloat.eqb y 0%float then Raise (zero_division "float division by zero")
  else Return (x / y)%float.

Definition str_of_Z (n : Z) : string :=
  NilZero.string_of_uint (N.to_uint (Z.to_N n)).

Fixpoint zeros (n : nat) : string :=
  match n with
  | O => ""
  | S n' => String "0" (zeros n')
  end.

(** The decimal numeral of [q / 10^digits] with exactly [digits] digits
    after the point. *)
Definition fixed_point (digits : nat) (q : Z) : string :=
  let d := str_of_Z q in
  let d := zeros (S digits - String.length d) ++ d in
  let k := (String.length d - digits)%nat in
  match digits with
  | O => d
  | _ => substring 0 k d ++ "." ++ substring k digits d
  end.

(** [f"{x:.Nf}"]: the exact value of [x] rounded to [digits] decimals, ties
    to even. *)
Definition format_f (digits : nat) (x : float) : string :=
  match Prim2SF x with
  | S754_nan => "nan"
  | S754_infinity s => if s then "-inf" else "inf"
  | S754_zero s => (if s then "-" else "") ++ fixed_point digits 0
  | S754_finite s m e =>
    let scaled := Z.pos m * 10 ^ Z.of_nat digits in
    let num := if 0 <=? e then scaled * 2 ^ e else scaled in
    let den := if 0 <=? e then 1 else 2 ^ (- e) in
    let q := num / den in
    let r := num mod den in
    let q := if 2 * r <? den then q
             else if den <? 2 * r then q + 1
             else if Z.even q then q else q + 1 in
    (if s then "-" else "") ++ fixed_point digits q
  end.

(** ** The host *)

(** What [subprocess.run] returns. *)
Record CompletedProcess := {
  returncode : Z;
  stdout : bytes;
  stderr : bytes
}.

(** The world outside the program, as the program observes it.  The
    functions of [os.path], [os.walk], [subprocess] and the file dialog are
    library code: they are taken as they answer, with the exceptions they
    raise. *)
Record Host := {
  sys_platform : string;
  os_environ_get : string -> option string;
  os_path_exists : string -> bool;
  os_path_isdir : string -> bool;
  os_path_join : string -> string -> string;
  os_path_basename : string -> string;
  os_path_splitext : string -> string * string;
  os_path_getsize : string -> outcome Z;
  (* the [(root, dirs, files)] triples of a top-down walk, in order *)
  os_walk : string -> list (string * list string * list string);
  (* [subprocess.check_output(argv)] *)
  subprocess_check_output : list pyarg -> outcome bytes;
  (* [subprocess.run(argv, check=True, stdout=PIPE, stderr=PIPE, ...)] *)
  subprocess_run : list pyarg -> outcome CompletedProcess;
  (* [filedialog.asksaveasfilename(..., initialfile=...)]; [""] on cancel *)
  asksaveasfilename : string -> string
}.

(** ** The application object and its effects *)

Inductive tk_state := NORMAL | DISABLED.

Record App := {
  input_pdf_path : string;
  output_pdf_path : string;
  compression_level : string;
  ghostscript_path : option string;
  compress_button_state : tk_state;
  status_label_text : string;
  progress_packed : bool;
  progress_running : bool
}.

(** A callback handed to [root.after]. *)
Inductive callback :=
| call_on_compression_success
| call_on_compression_error (error_message : string).

Inductive event :=
| Spawn (argv : list pyarg)              (* a child process is launched *)
| ShowWarning (title message : string)   (* [messagebox.showwarning] *)
| ShowError (title message : string)     (* [messagebox.showerror] *)
| ShowInfo (title message : string)      (* [messagebox.showinfo] *)
| AskSaveAs (initialfile : string)       (* the save dialog is opened *)
| ThreadStart                            (* the worker thread is started *)
| After (ms : Z) (cb : callback).        (* [root.after(ms, cb)] *)

Record World := {
  app : App;
  trace : list event
}.

(** ** The monad *)

Definition Py (A : Type) := World -> outcome A * World.

Definition ret {A} (a : A) : Py A := fun w => (Return a, w).

Definition bind {A B} (m : Py A) (k : A -> Py B) : Py B :=
  fun w =>
    match m w with
    | (Return a, w') => k a w'
    | (Raise e, w') => (Raise e, w')
    end.

Definition lift {A} (o : outcome A) : Py A := fun w => (o, w).

(** [try: body / except ...]: [handler e] is [Some k] when a clause matches
    [e]; what [body] did before raising stays done. *)
Definition try_except {A} (body : Py A) (handler : py_exception -> option (Py A))
  : Py A :=
  fun w =>
    match body w with
    | (Return a, w') => (Return a, w')
    | (Raise e, w') =>
      match handler e with
      | Some k => k w'
      | None => (Raise e, w')
      end
    end.

Definition gets {A} (f : App -> A) : Py A := fun w => (Return (f (app w)), w).

Definition modify (f : App -> App) : Py unit :=
  fun w => (Return tt, {| app := f (app w); trace := trace w |}).

Definition emit (e : event) : Py unit :=
  fun w => (Return tt, {| app := app w; trace := (trace w ++ [e])%list |}).

Declare Scope py_scope.
Delimit Scope py_scope with py.
Notation "x <- m ;; k" := (bind m (fun x => k))
  (at level 61, m at next level, right associativity) : py_scope.
Notation "m ;; k" := (bind m (fun _ => k))
  (at level 61, right associativity) : py_scope.
Open Scope py_scope.

(** Attribute and widget updates. *)
Definition set_output_pdf_path (v : string) (a : App) : App :=
  {| input_pdf_path := input_pdf_path a; output_pdf_path := v;
     compression_level := compression_level a;
     ghostscript_path := ghostscript_path a;
     compress_button_state := compress_button_state a;
     status_label_text := status_label_text a;
     progress_packed := progress_packed a;
     progress_running := progress_running a |}.

Definition set_ghostscript_path (v : option string) (a : App) : App :=
  {| input_pdf_path := input_pdf_path a; output_pdf_path := output_pdf_path a;
     compression_level := compression_level a;
     ghostscript_path := v;
     compress_button_state := compress_button_state a;
     status_label_text := status_label_text a;
     progress_packed := progress_packed a;
     progress_running := progress_running a |}.

Definition set_compress_button_state (v : tk_state) (a : App) : App :=
  {| input_pdf_path := input_pdf_path a; output_pdf_path := output_pdf_path a;
     compression_level := compression_level a;
     ghostscript_path := ghostscript_path a;
     compress_button_state := v;
     status_label_text := status_label_text a;
     progress_packed := progress_packed a;
     progress_running := progress_running a |}.

Definition set_status_label_text (v : string) (a : App) : App :=
  {| input_pdf_path := input_pdf_path a; output_pdf_path := output_pdf_path a;
     compression_level := compression_level a;
     ghostscript_path := ghostscript_path a;
     compress_button_state := compress_button_state a;
     status_label_text := v;
     progress_packed := progress_packed a;
     progress_running := progress_running a |}.

Definition set_progress_packed (v : bool) (a : App) : App :=
  {| input_pdf_path := input_pdf_path a; output_pdf_path := output_pdf_path a;
     compression_level := compression_level a;
     ghostscript_path := ghostscript_path a;
     compress_button_state := compress_button_state a;
     status_label_text := status_label_text a;
     progress_packed := v;
     progress_running := progress_running a |}.

Definition set_progress_running (v : bool) (a : App) : App :=
  {| input_pdf_path := input_pdf_path a; output_pdf_path := output_pdf_path a;
     compression_level := compression_level a;
     ghostscript_path := ghostscript_path a;
     compress_button_state := compress_button_state a;
     status_label_text := status_label_text a;
     progress_packed := progress_packed a;
     progress_running := v |}.

(** ** [PDFCompressorApp] *)

(** Truth value of a [str] or [None]: [not x] holds for [None] and [""]. *)
Definition py_not (x : option string) : bool :=
  match x with
  | None => true
  | Some s => String.eqb s ""
  end.

(** [name in files] *)
Definition str_in (name : string) (files : list string) : bool :=
  existsb (String.eqb name) files.

(** [except (A, B)]: the classes have no subclasses, so [isinstance] is
    equality of classes. *)
Definition isinstance (e : py_exception) (classes : list exc_class) : bool :=
  existsb (exc_class_eqb (exc_type e)) classes.

Definition check_output (h : Host) (argv : list pyarg) : Py bytes :=
  emit (Spawn argv) ;; lift (subprocess_check_output h argv).

Definition run_checked (h : Host) (argv : list pyarg) : Py CompletedProcess :=
  emit (Spawn argv) ;; lift (subprocess_run h argv).

Definition gs_names : list string := ["gswin64c.exe"; "gswin32c.exe"; "gs.exe"].

(** The first loop of [find_ghostscript], over the names still to try.
    [Some path] stands for [return path], [None] for a loop that ran to its
    end. *)
Fixpoint find_in_path (h : Host) (names : list string) : Py (option string) :=
  match names with
  | [] => ret None
  | name :: rest =>
    if String.eqb (sys_platform h) "win32" then
      found <- try_except
        (out <- check_output h [Some "where"; Some name] ;;
         path <- lift (bytes_decode Strict (bytes_strip out)) ;;
         if os_path_exists h path then ret (Some path) else ret None)
        (fun e =>
           if isinstance e [CalledProcessError; FileNotFoundError]
           then Some (ret None) else None) ;;
      match found with
      | Some path => ret (Some path)
      | None => find_in_path h rest
      end
    else find_in_path h rest
  end.

(** [for name in gs_names: if name in files: return os.path.join(root, name)] *)
Definition first_candidate (files : list string) : option string :=
  find (fun name => str_in name files) gs_names.

(** The loop over the triples of [os.walk(gs_dir)]. *)
Fixpoint scan_walk (h : Host) (entries : list (string * list string * list string))
  : option string :=
  match entries with
  | [] => None
  | (root, _, files) :: rest =>
    match first_candidate files with
    | Some name => Some (os_path_join h root name)
    | None => scan_walk h rest
    end
  end.

(** The loop over [gs_dirs]. *)
Fixpoint scan_dirs (h : Host) (gs_dirs : list string) : option string :=
  match gs_dirs with
  | [] => None
  | gs_dir :: rest =>
    if os_path_isdir h gs_dir then
      match scan_walk h (os_walk h gs_dir) with
      | Some path => Some path
      | None => scan_dirs h rest
      end
    else scan_dirs h rest
  end.

Definition program_files (h : Host) : string :=
  match os_environ_get h "ProgramFiles" with
  | Some v => v
  | None => "C:\Program Files"
  end.

Definition gs_dirs (h : Host) : list string :=
  [os_path_join h (program_files h) "gs"].

Definition find_ghostscript (h : Host) : Py (option string) :=
  found <- find_in_path h gs_names ;;
  match found with
  | Some path => ret (Some path)
  | None => ret (scan_dirs h (gs_dirs h))
  end.

Definition ghostscript_warning_text : string :=
  "Ghostscript is required for PDF compression but could not be found."
  ++ LF ++ LF ++
  "Please install Ghostscript and ensure it's added to your system's PATH."
  ++ LF ++ LF ++
  "You can download it from: ghostscript.com/releases".

Definition show_ghostscript_warning : Py unit :=
  emit (ShowWarning "Ghostscript Not Found" ghostscript_warning_text).

(** The text the status label is created with. *)
Definition idle_status_text : string := "Ready. Select a file to begin.".

(** The part of [create_widgets] that later code reads: the button is
    created enabled, the progress bar is created unpacked and at rest, the
    status label shows the idle text. *)
Definition create_widgets : Py unit :=
  modify (set_compress_button_state NORMAL) ;;
  modify (set_progress_running false) ;;
  modify (set_status_label_text idle_status_text) ;;
  modify (set_progress_packed false).

(** The attributes before [__init__] has run. *)
Definition blank_app : App :=
  {| input_pdf_path := ""; output_pdf_path := "";
     compression_level := ""; ghostscript_path := None;
     compress_button_state := NORMAL; status_label_text := "";
     progress_packed := false; progress_running := false |}.

Definition set_compression_level (v : string) (a : App) : App :=
  {| input_pdf_path := input_pdf_path a; output_pdf_path := output_pdf_path a;
     compression_level := v;
     ghostscript_path := ghostscript_path a;
     compress_button_state := compress_button_state a;
     status_label_text := status_label_text a;
     progress_packed := progress_packed a;
     progress_running := progress_running a |}.

Definition init (h : Host) : Py unit :=
  modify (set_compression_level "ebook") ;;
  gs <- find_ghostscript h ;;
  modify (set_ghostscript_path gs) ;;
  create_widgets ;;
  gs <- gets ghostscript_path ;;
  if py_not gs then show_ghostscript_warning else ret tt.

(** The values of the radio buttons, the keys of [levels]. *)
Definition levels : list string := ["screen"; "ebook"; "printer"; "prepress"].

Definition start_compression_thread (h : Host) : Py unit :=
  input <- gets input_pdf_path ;;
  if String.eqb input "" then
    emit (ShowError "Error" "Please select an input PDF file first.")
  else
    gs <- gets ghostscript_path ;;
    if py_not gs then show_ghostscript_warning
    else
      let initialfile :=
        fst (os_path_splitext h (os_path_basename h input)) ++ "_compressed.pdf" in
      emit (AskSaveAs initialfile) ;;
      let output_path := asksaveasfilename h initialfile in
      if String.eqb output_path "" then
        modify (set_status_label_text "Save cancelled. Ready.")
      else
        modify (set_output_pdf_path output_path) ;;
        modify (set_compress_button_state DISABLED) ;;
        modify (set_status_label_text "Compressing... Please wait.") ;;
        modify (set_progress_packed true) ;;
        modify (set_progress_running true) ;;
        emit ThreadStart.

(** The local [command] of [run_compression]. *)
Definition command (a : App) : list pyarg :=
  [ ghostscript_path a;
    Some "-sDEVICE=pdfwrite";
    Some "-dCompatibilityLevel=1.4";
    Some ("-dPDFSETTINGS=/" ++ compression_level a);
    Some "-dNOPAUSE";
    Some "-dQUIET";
    Some "-dBATCH";
    Some ("-sOutputFile=" ++ output_pdf_path a);
    Some (input_pdf_path a) ].

Definition root_after (ms : Z) (cb : callback) : Py unit := emit (After ms cb).

Definition run_compression (h : Host) : Py unit :=
  a <- gets (fun a => a) ;;
  try_except
    (process <- run_checked h (command a) ;;
     root_after 0 call_on_compression_success)
    (fun e =>
       if isinstance e [CalledProcessError] then
         Some (text <- lift (bytes_decode Ignore (exc_stderr e)) ;;
               let error_message := "Ghostscript Error:" ++ LF ++ text in
               root_after 0 (call_on_compression_error error_message))
       else
         Some (root_after 0 (call_on_compression_error (exc_str e)))).

Definition success_text (original_size compressed_size reduction : float) : string :=
  "PDF compressed successfully!" ++ LF ++ LF ++
  "Original Size: " ++ format_f 2 original_size ++ " MB" ++ LF ++
  "Compressed Size: " ++ format_f 2 compressed_size ++ " MB" ++ LF ++
  "Reduction: " ++ format_f 1 reduction ++ "%".

Definition on_compression_success (h : Host) : Py unit :=
  modify (set_progress_running false) ;;
  modify (set_progress_packed false) ;;
  modify (set_compress_button_state NORMAL) ;;
  modify (set_status_label_text "Compression successful!") ;;
  input <- gets input_pdf_path ;;
  n <- lift (os_path_getsize h input) ;;
  original_size <- lift (int_truediv n (1024 * 1024)) ;;
  output <- gets output_pdf_path ;;
  m <- lift (os_path_getsize h output) ;;
  compressed_size <- lift (int_truediv m (1024 * 1024)) ;;
  ratio <- lift (float_truediv compressed_size original_size) ;;
  let reduction := (100 - ratio * 100)%float in
  emit (ShowInfo "Success" (success_text original_size compressed_size reduction)) ;;
  modify (set_status_label_text "Ready.").

Definition on_compression_error (error_message : string) : Py unit :=
  modify (set_progress_running false) ;;
  modify (set_progress_packed false) ;;
  modify (set_compress_button_state NORMAL) ;;
  modify (set_status_label_text "An error occurred.") ;;
  emit (ShowError "Compression Failed"
          ("An error occurred during compression:" ++ LF ++ LF ++ error_message)).

(** Running a callback the event loop took from the [After] queue. *)
Definition run_callback (h : Host) (cb : callback) : Py unit :=
  match cb with
  | call_on_compression_success => on_compression_success h
  | call_on_compression_error error_message => on_compression_error error_message
  end.

(** ** Vocabulary of the statements *)

(** The callbacks posted to the controlling thread, in order. *)
Fixpoint posted (t : list event) : list callback :=
  match t with
  | [] => []
  | After _ cb :: r => cb :: posted r
  | _ :: r => posted r
  end.

(** An argument that sets [-dPDFSETTINGS]. *)
Definition is_preset_flag (x : pyarg) : bool :=
  match x with
  | Some s => String.prefix "-dPDFSETTINGS=" s
  | None => false
  end.

(** The flags that do not depend on the job. *)
Definition fixed_flags : list string :=
  ["-sDEVICE=pdfwrite"; "-dCompatibilityLevel=1.4"; "-dNOPAUSE"; "-dQUIET";
   "-dBATCH"].

(** What [run_compression] leaves behind when it posts [cb]: the attributes
    as they were, and after the old trace the launch and the one callback. *)
Definition ran (w : World) (cb : callback) : outcome unit * World :=
  (Return tt,
   {| app := app w;
      trace := (trace w ++ [Spawn (command (app w)); After 0 cb])%list |}).

(** The attributes once the success handler is through. *)
Definition after_success (a : App) : App :=
  set_status_label_text "Ready."
    (set_status_label_text "Compression successful!"
       (set_compress_button_state NORMAL
          (set_progress_packed false (set_progress_running false a)))).

(** The attributes once the error handler is through. *)
Definition after_error (a : App) : App :=
  set_status_label_text "An error occurred."
    (set_compress_button_state NORMAL
       (set_progress_packed false (set_progress_running false a))).

(** The attributes when the success handler is interrupted before the
    dialog. *)
Definition before_dialog (a : App) : App :=
  set_status_label_text "Compression successful!"
    (set_compress_button_state NORMAL
       (set_progress_packed false (set_progress_running false a))).

(** What one pass of the first loop of [find_ghostscript] makes of a name
    on win32: the body returns a path, goes on to the next name, or lets an
    exception escape. *)
Inductive probe :=
| Found (path : string)
| NotFound
| Failed (e : py_exception).

Definition caught_by_probe (e : py_exception) : bool :=
  isinstance e [CalledProcessError; FileNotFoundError].

Definition probe_name (h : Host) (name : string) : probe :=
  match subprocess_check_output h [Some "where"; Some name] with
  | Raise e => if caught_by_probe e then NotFound else Failed e
  | Return out =>
    match bytes_decode Strict (bytes_strip out) with
    | Raise e => if caught_by_probe e then NotFound else Failed e
    | Return path => if os_path_exists h path then Found path else NotFound
    end
  end.

Fixpoint path_search (h : Host) (names : list string) : probe :=
  match names with
  | [] => NotFound
  | name :: rest =>
    match probe_name h name with
    | Found path => Found path
    | NotFound => path_search h rest
    | Failed e => Failed e
    end
  end.

(** A candidate name resolves via PATH lookup: the platform is win32 and
    [where name] prints one path, valid UTF-8, of something that exists. *)
Definition resolves_via_path (h : Host) (name : string) : option string :=
  if String.eqb (sys_platform h) "win32" then
    match probe_name h name with
    | Found path => Some path
    | _ => None
    end
  else None.

(** The first name of the list that resolves, in the order of the list. *)
Fixpoint first_resolved (h : Host) (names : list string) : option string :=
  match names with
  | [] => None
  | name :: rest =>
    match resolves_via_path h name with
    | Some path => Some path
    | None => first_resolved h rest
    end
  end.

(** No exception escapes the probes the first loop makes. *)
Definition probes_caught (h : Host) : bool :=
  if String.eqb (sys_platform h) "win32" then
    match path_search h gs_names with
    | Failed _ => false
    | _ => true
    end
  else true.

(** The walk lists [name] in a directory of the installation root. *)
Definition listed_by_walk (h : Host) (path : string) : Prop :=
  exists root dirs files name,
    In (root, dirs, files) (os_walk h (os_path_join h (program_files h) "gs"))
    /\ In name gs_names /\ In name files
    /\ path = os_path_join h root name.



(** ** Sample hosts and worlds *)

Definition no_file : Host :=
  {| sys_platform := "linux";
     os_environ_get := fun _ => None;
     os_path_exists := fun _ => false;
     os_path_isdir := fun _ => false;
     os_path_join := fun a b => a ++ "/" ++ b;
     os_path_basename := fun p => p;
     os_path_splitext := fun p => (p, "");
     os_path_getsize := fun _ =>
       Raise (mk_exception FileNotFoundError "[Errno 2] No such file or directory" []);
     os_walk := fun _ => [];
     subprocess_check_output := fun _ =>
       Raise (mk_exception FileNotFoundError "[Errno 2] No such file or directory: 'where'" []);
     subprocess_run := fun _ =>
       Return {| returncode := 0; stdout := []; stderr := [] |};
     asksaveasfilename := fun _ => "" |}.

Definition with_files (exists_ isdir : string -> bool)
           (walk : string -> list (string * list string * list string))
           (getsize : string -> outcome Z) (h : Host) : Host :=
  {| sys_platform := sys_platform h;
     os_environ_get := os_environ_get h;
     os_path_exists := exists_;
     os_path_isdir := isdir;
     os_path_join := os_path_join h;
     os_path_basename := os_path_basename h;
     os_path_splitext := os_path_splitext h;
     os_path_getsize := getsize;
     os_walk := walk;
     subprocess_check_output := subprocess_check_output h;
     subprocess_run := subprocess_run h;
     asksaveasfilename := asksaveasfilename h |}.

Definition with_processes (check : list pyarg -> outcome bytes)
           (run : list pyarg -> outcome CompletedProcess) (h : Host) : Host :=
  {| sys_platform := sys_platform h;
     os_environ_get := os_environ_get h;
     os_path_exists := os_path_exists h;
     os_path_isdir := os_path_isdir h;
     os_path_join := os_path_join h;
     os_path_basename := os_path_basename h;
     os_path_splitext := os_path_splitext h;
     os_path_getsize := os_path_getsize h;
     os_walk := os_walk h;
     subprocess_check_output := check;
     subprocess_run := run;
     asksaveasfilename := asksaveasfilename h |}.

Definition with_save_dialog (answer : string -> string) (h : Host) : Host :=
  {| sys_platform := sys_platform h;
     os_environ_get := os_environ_get h;
     os_path_exists := os_path_exists h;
     os_path_isdir := os_path_isdir h;
     os_path_join := os_path_join h;
     os_path_basename := os_path_basename h;
     os_path_splitext := os_path_splitext h;
     os_path_getsize := os_path_getsize h;
     os_walk := os_walk h;
     subprocess_check_output := subprocess_check_output h;
     subprocess_run := subprocess_run h;
     asksaveasfilename := answer |}.

Definition CRLF : bytes := [x0d; x0a].

Definition gs_root : string := "C:\Program Files\gs".
Definition gs_bin : string := "C:\Program Files\gs\gs10.02.1\bin".
Definition installed_gs : string := "C:\Program Files\gs\gs10.02.1\bin\gswin64c.exe".
Definition gs_on_path : string := "C:\Tools\gs\gswin32c.exe".

Definition exit_status_1 : py_exception :=
  mk_exception CalledProcessError
    "Command '['where', 'gswin64c.exe']' returned non-zero exit status 1." [].

Definition access_denied : py_exception :=
  mk_exception PermissionError "[WinError 5] Access is denied" [].

(** A Windows machine: Ghostscript is installed under Program Files, and a
    32-bit copy is on the PATH.  [where gswin64c.exe] exits with status 1,
    [where gswin32c.exe] prints the copy on the PATH. *)
Definition windows_files : Host :=
  with_files
    (fun p => String.eqb p installed_gs || String.eqb p gs_on_path)%bool
    (fun p => String.eqb p gs_root)
    (fun d => if String.eqb d gs_root
              then [(gs_root, ["gs10.02.1"], []);
                    ("C:\Program Files\gs\gs10.02.1", ["bin"; "lib"], []);
                    (gs_bin, [], ["gswin64.exe"; "gswin64c.exe"])]
              else [])
    (fun _ => Return 0)
    {| sys_platform := "win32";
       os_environ_get := fun name =>
         if String.eqb name "ProgramFiles" then Some "C:\Program Files" else None;
       os_path_exists := fun _ => false;
       os_path_isdir := fun _ => false;
       os_path_join := fun a b => a ++ "\" ++ b;
       os_path_basename := fun p => p;
       os_path_splitext := fun p => (p, "");
       os_path_getsize := fun _ => Return 0;
       os_walk := fun _ => [];
       subprocess_check_output := fun _ => Raise exit_status_1;
       subprocess_run := fun _ =>
         Return {| returncode := 0; stdout := []; stderr := [] |};
       asksaveasfilename := fun _ => "" |}.

Definition where_is (name : string) (argv : list pyarg) : bool :=
  match argv with
  | [Some "where"; Some n] => String.eqb n name
  | _ => false
  end.

Definition windows_host : Host :=
  with_processes
    (fun argv =>
       if where_is "gswin32c.exe" argv
       then Return (list_byte_of_string gs_on_path ++ CRLF)%list
       else Raise exit_status_1)
    (subprocess_run windows_files)
    windows_files.


(** The same machine, but launching [where] is refused. *)
Definition locked_down_host : Host :=
  with_processes (fun _ => Raise access_denied)
                 (subprocess_run windows_files) windows_files.

(** A Linux machine with a [gs.exe] below [C:\Program Files/gs] and a
    [where] command that would answer for every candidate. *)
Definition linux_host : Host :=
  with_processes
    (fun _ => Return (list_byte_of_string "/usr/bin/gswin64c.exe"))
    (subprocess_run no_file)
    (with_files
       (fun _ => true)
       (fun p => String.eqb p "C:\Program Files/gs")
       (fun d => if String.eqb d "C:\Program Files/gs"
                 then [("C:\Program Files/gs", ["bin"], ["README"]);
                       ("C:\Program Files/gs/bin", [], ["gs.exe"])]
                 else [])
       (fun _ => Return 0)
       no_file).

Definition MiB : Z := 1024 * 1024.

(** A job in flight: both paths chosen, controls disabled. *)
Definition job_app : App :=
  {| input_pdf_path := "C:\docs\report.pdf";
     output_pdf_path := "C:\docs\report_compressed.pdf";
     compression_level := "ebook";
     ghostscript_path := Some installed_gs;
     compress_button_state := DISABLED;
     status_label_text := "Compressing... Please wait.";
     progress_packed := true;
     progress_running := true |}.

Definition job_world : World := {| app := job_app; trace := [] |}.

(** The sizes on disk after a job: [original] for the input file,
    [compressed] for the output file. *)
Definition sizes_host (original compressed : Z) : Host :=
  with_files
    (os_path_exists windows_files) (os_path_isdir windows_files)
    (os_walk windows_files)
    (fun p => if String.eqb p "C:\docs\report.pdf" then Return original
              else if String.eqb p "C:\docs\report_compressed.pdf"
                   then Return compressed
                   else Raise (mk_exception FileNotFoundError
                                 "[WinError 2] The system cannot find the file specified" []))
    windows_files.

Definition invalid_page_tree : bytes :=
  list_byte_of_string "error: invalid page tree".

(** Ghostscript exits with status 1 and the given error stream. *)
Definition failing_host (err : bytes) : Host :=
  with_processes
    (subprocess_check_output windows_files)
    (fun _ => Raise (mk_exception CalledProcessError
                       "Command returned non-zero exit status 1." err))
    windows_files.

(** Before a job: an input path is selected that names no file; the user
    confirms a save location. *)
Definition missing_input_app : App :=
  {| input_pdf_path := "C:\docs\missing.pdf";
     output_pdf_path := "";
     compression_level := "ebook";
     ghostscript_path := Some installed_gs;
     compress_button_state := NORMAL;
     status_label_text := "Selected: missing.pdf";
     progress_packed := false;
     progress_running := false |}.

Definition missing_input_world : World :=
  {| app := missing_input_app; trace := [] |}.

Definition confirming_host : Host :=
  with_save_dialog (fun _ => "C:\docs\out.pdf") windows_files.

(** The object when [__init__] starts. *)
Definition startup_world : World := {| app := blank_app; trace := [] |}.

(** Nothing selected yet. *)
Definition fresh_world : World :=
  {| app := set_ghostscript_path (Some installed_gs)
              (set_status_label_text idle_status_text
                 (set_compression_level "ebook" blank_app));
     trace := [] |}.

(** ** The rest of the application: the open dialog, the radio buttons,
    and the states the handlers reach *)

Definition set_input_pdf_path (v : string) (a : App) : App :=
  {| input_pdf_path := v; output_pdf_path := output_pdf_path a;
     compression_level := compression_level a;
     ghostscript_path := ghostscript_path a;
     compress_button_state := compress_button_state a;
     status_label_text := status_label_text a;
     progress_packed := progress_packed a;
     progress_running := progress_running a |}.

(** [select_input_file]; [filepath] is the answer of
    [filedialog.askopenfilename], [""] when the dialog is cancelled. *)
Definition select_input_file (h : Host) (filepath : string) : Py unit :=
  if String.eqb filepath "" then ret tt
  else
    modify (set_input_pdf_path filepath) ;;
    modify (set_status_label_text ("Selected: " ++ os_path_basename h filepath)).

(** A radio button of [create_widgets] is picked: the variable
    [compression_level] takes the button's [value]. *)
Definition choose_level (value : string) : Py unit :=
  modify (set_compression_level value).

(** What can happen to the application once it is built. *)
Inductive action :=
| SelectInputFile (filepath : string)   (* the Browse button and its dialog *)
| ChooseLevel (value : string)          (* a radio button *)
| StartCompression                      (* the Compress button *)
| RunCompression                        (* the worker thread runs *)
| Callback (cb : callback).             (* the event loop runs a callback *)

(** The radio buttons only offer the keys of [levels]. *)
Definition offered (a : action) : Prop :=
  match a with
  | ChooseLevel value => In value levels
  | _ => True
  end.

Definition perform (h : Host) (a : action) : Py unit :=
  match a with
  | SelectInputFile filepath => select_input_file h filepath
  | ChooseLevel value => choose_level value
  | StartCompression => start_compression_thread h
  | RunCompression => run_compression h
  | Callback cb => run_callback h cb
  end.

(** The worlds the application can be in: the one [__init__] leaves when it
    returns, and those the actions lead to, in any order and each on the host
    of its moment, whether the action returns or raises. *)
Inductive reachable : World -> Prop :=
| reachable_init (h : Host) :
    fst (init h startup_world) = Return tt ->
    reachable (snd (init h startup_world))
| reachable_step (h : Host) (a : action) (w : World) :
    reachable w -> offered a -> reachable (snd (perform h a w)).

(** The controls agree with each other. *)
Definition consistent (a : App) : Prop :=
  In (compression_level a) levels
  /\ (compress_button_state a = DISABLED <-> progress_running a = true)
  /\ progress_packed a = progress_running a
  /\ (compress_button_state a = DISABLED ->
      input_pdf_path a <> "" /\ output_pdf_path a <> ""
      /\ py_not (ghostscript_path a) = false).

(** The event of one probe of the first loop of [find_ghostscript]. *)
Definition where_probe (name : string) : event :=
  Spawn [Some "where"; Some name].

(** The attributes once [__init__] is through, [gs] being what the locator
    returned. *)
Definition after_init (gs : option string) (a : App) : App :=
  set_progress_packed false
    (set_status_label_text idle_status_text
       (set_progress_running false
          (set_compress_button_state NORMAL
             (set_ghostscript_path gs (set_compression_level "ebook" a))))).

(** The attributes once a job is accepted, saved as [output_path]. *)
Definition after_start (output_path : string) (a : App) : App :=
  set_progress_running true
    (set_progress_packed true
       (set_status_label_text "Compressing... Please wait."
          (set_compress_button_state DISABLED
             (set_output_pdf_path output_path a)))).

(** The name the save dialog proposes. *)
Definition initialfile (h : Host) (a : App) : string :=
  fst (os_path_splitext h (os_path_basename h (input_pdf_path a)))
  ++ "_compressed.pdf".

(** The three tests of [start_compression_thread] all pass. *)
Definition accepted (h : Host) (a : App) : bool :=
  negb (String.eqb (input_pdf_path a) "")
  && negb (py_not (ghostscript_path a))
  && negb (String.eqb (asksaveasfilename h (initialfile h a)) "").

(** An input is selected and nothing runs. *)
Definition selected_world : World :=
  {| app := set_status_label_text "Selected: report.pdf"
              (set_input_pdf_path "C:\docs\report.pdf" (app fresh_world));
     trace := [] |}.

(** The user confirms the save dialog with the path of [job_app]. *)
Definition saving_host : Host :=
  with_save_dialog (fun _ => "C:\docs\report_compressed.pdf") windows_files.

(** A machine on which the locator finds nothing, and the world after
    [__init__], a selection and a press of the Compress button there. *)
Definition helpless_world : World :=
  snd (perform confirming_host StartCompression
         (snd (perform no_file (SelectInputFile "/home/u/report.pdf")
                 (snd (init no_file startup_world))))).

(** A run of the application: actions, each on the host of its moment. *)
Fixpoint perform_all (steps : list (Host * action)) (w : World) : World :=
  match steps with
  | [] => w
  | (h, a) :: rest => perform_all rest (snd (perform h a w))
  end.

(** The value of the radio button picked last, [current] when none was. *)
Fixpoint last_level (steps : list (Host * action)) (current : string) : string :=
  match steps with
  | [] => current
  | (_, ChooseLevel value) :: rest => last_level rest value
  | _ :: rest => last_level rest current
  end.

(** The answer of the open dialog confirmed last, [current] when none was. *)
Fixpoint last_selection (steps : list (Host * action)) (current : string) : string :=
  match steps with
  | [] => current
  | (_, SelectInputFile filepath) :: rest =>
    last_selection rest (if String.eqb filepath "" then current else filepath)
  | _ :: rest => last_selection rest current
  end.

(** The first byte of [s], if there is one, is no white space. *)
Definition starts_tight (s : bytes) : Prop :=
  match s with
  | [] => True
  | b :: _ => is_space b = false
  end.

(** After a job during which [C:\docs\other.pdf] was selected: the sizes of
    that file and of the output. *)
Definition other_sizes_host : Host :=
  with_files
    (os_path_exists windows_files) (os_path_isdir windows_files)
    (os_walk windows_files)
    (fun p => if String.eqb p "C:\docs\other.pdf" then Return (3 * MiB)
              else if String.eqb p "C:\docs\report_compressed.pdf"
                   then Return (4 * MiB)
                   else Raise (mk_exception FileNotFoundError
                                 "[WinError 2] The system cannot find the file specified" []))
    windows_files.

(** Runs the monadic operations of a handler, and the attribute reads
    through the attribute updates before them. *)
Ltac run_handler :=
  cbv beta iota delta [bind gets emit lift modify ret];
  cbn [app trace input_pdf_path output_pdf_path
       set_status_label_text set_compress_button_state
       set_progress_packed set_progress_running].

(** ** The decoder *)

Lemma utf8_decode_loop_ignore_returns (fuel pos : nat) (s : bytes) :
  exists text, utf8_decode_loop fuel Ignore pos s = Return text.
Proof.
  revert pos s.
  induction fuel as [|fuel IH]; intros pos s.
  - exists "". destruct s; reflexivity.
  - destruct s as [|b r]; [exists ""; reflexivity|].
    cbn [utf8_decode_loop].
    destruct (utf8_step (map Byte.to_N (b :: r))) as [n| |n|].
    + destruct (IH (pos + n)%nat (skipn n (b :: r))) as [t Ht].
      rewrite Ht. cbn. eexists; reflexivity.
    + apply IH.
    + apply IH.
    + apply IH.
Qed.

Lemma bytes_decode_ignore_returns (s : bytes) :
  exists text, bytes_decode Ignore s = Return text.
Proof. apply utf8_decode_loop_ignore_returns. Qed.

Lemma utf8_step_consumes (s : list N) :
  match utf8_step s with
  | Utf8Char n | Utf8InvalidContinuation n => (1 <= n)%nat
  | Utf8InvalidStart | Utf8UnexpectedEnd => True
  end.
Proof.
  unfold utf8_step.
  repeat match goal with
         | |- context [if ?c then _ else _] => destruct c
         | |- context [match ?l with [] => _ | _ :: _ => _ end] => destruct l
         end; cbn; auto with arith.
Qed.

Lemma skipn_shorter {A : Type} (n : nat) (b : A) (r : list A) :
  (1 <= n)%nat -> (List.length (skipn n (b :: r)) <= List.length r)%nat.
Proof.
  intros Hn. destruct n as [|k]; [lia|].
  cbn [skipn]. rewrite length_skipn. lia.
Qed.

(** The decoder does not depend on its fuel once there is a round for
    every byte. *)
Lemma utf8_decode_loop_fuel (errors : error_handler) :
  forall fuel fuel' pos s,
    (List.length s <= fuel)%nat -> (List.length s <= fuel')%nat ->
    utf8_decode_loop fuel errors pos s = utf8_decode_loop fuel' errors pos s.
Proof.
  induction fuel as [|fuel IH]; intros fuel' pos s Hf Hf'.
  - destruct s; [|cbn in Hf; lia]. destruct fuel'; reflexivity.
  - destruct s as [|b r]; [destruct fuel'; reflexivity|].
    destruct fuel' as [|fuel']; [cbn in Hf'; lia|].
    cbn [List.length] in Hf, Hf'.
    cbn [utf8_decode_loop].
    pose proof (utf8_step_consumes (map Byte.to_N (b :: r))) as Hn.
    destruct (utf8_step (map Byte.to_N (b :: r))) as [n| |n|].
    + pose proof (skipn_shorter n b r Hn).
      rewrite (IH fuel' (pos + n)%nat (skipn n (b :: r))) by lia. reflexivity.
    + cbn [skipn].
      rewrite (IH fuel' (pos + 1)%nat r) by lia. reflexivity.
    + pose proof (skipn_shorter n b r Hn).
      rewrite (IH fuel' (pos + n)%nat (skipn n (b :: r))) by lia. reflexivity.
    + pose proof (skipn_shorter (List.length (b :: r)) b r
                                ltac:(cbn [List.length]; lia)).
      rewrite (IH fuel' (pos + List.length (b :: r))%nat
                  (skipn (List.length (b :: r)) (b :: r))) by lia.
      reflexivity.
Qed.

(** ** The locator *)

Lemma find_in_path_not_win32 (h : Host) (names : list string) (w : World) :
  sys_platform h <> "win32" ->
  find_in_path h names w = (Return None, w).
Proof.
  intros Hp. apply String.eqb_neq in Hp.
  induction names as [|name rest IH]; cbn [find_in_path].
  - reflexivity.
  - rewrite Hp. exact IH.
Qed.

Lemma find_in_path_win32 (h : Host) (names : list string) (w : World) :
  sys_platform h = "win32" ->
  fst (find_in_path h names w) =
  match path_search h names with
  | Found path => Return (Some path)
  | NotFound => Return None
  | Failed e => Raise e
  end.
Proof.
  intros Hp. revert w.
  induction names as [|name rest IH]; intros w; cbn [find_in_path path_search].
  - reflexivity.
  - rewrite Hp, String.eqb_refl.
    unfold probe_name.
    cbv beta iota delta [bind try_except check_output emit lift ret].
    destruct (subprocess_check_output h [Some "where"; Some name]) as [out|e].
    + destruct (bytes_decode Strict (bytes_strip out)) as [path|e].
      * destruct (os_path_exists h path); [reflexivity | apply IH].
      * unfold caught_by_probe.
        destruct (isinstance e _); [apply IH | reflexivity].
    + unfold caught_by_probe.
      destruct (isinstance e _); [apply IH | reflexivity].
Qed.

Lemma path_search_caught (h : Host) (names : list string) :
  match path_search h names with
  | Failed _ => false
  | _ => true
  end = true ->
  sys_platform h = "win32" ->
  path_search h names = match first_resolved h names with
                        | Some path => Found path
                        | None => NotFound
                        end.
Proof.
  intros Hc Hp.
  induction names as [|name rest IH]; cbn [path_search first_resolved] in *.
  - reflexivity.
  - unfold resolves_via_path. rewrite Hp, String.eqb_refl.
    destruct (probe_name h name); [reflexivity | auto | discriminate].
Qed.

Lemma first_resolved_not_win32 (h : Host) (names : list string) :
  sys_platform h <> "win32" -> first_resolved h names = None.
Proof.
  intros Hp. apply String.eqb_neq in Hp.
  induction names as [|name rest IH]; cbn [first_resolved]; [reflexivity|].
  unfold resolves_via_path. rewrite Hp. exact IH.
Qed.


(** With every escaping exception ruled out, the locator is the two-stage
    search: the first name that resolves on the PATH, else the scan. *)
Lemma find_ghostscript_caught (h : Host) (w : World) :
  probes_caught h = true ->
  fst (find_ghostscript h w) =
  Return match first_resolved h gs_names with
         | Some path => Some path
         | None => scan_dirs h (gs_dirs h)
         end.
Proof.
  intros Hc. unfold find_ghostscript, bind.
  destruct (String.eqb (sys_platform h) "win32") eqn:Hp.
  - apply String.eqb_eq in Hp.
    pose proof (find_in_path_win32 h gs_names w Hp) as Hf.
    unfold probes_caught in Hc. rewrite Hp, String.eqb_refl in Hc.
    rewrite (path_search_caught h gs_names Hc Hp) in Hf.
    destruct (find_in_path h gs_names w) as [r w']. cbn [fst] in Hf. subst r.
    destruct (first_resolved h gs_names); reflexivity.
  - apply String.eqb_neq in Hp.
    rewrite (find_in_path_not_win32 h gs_names w Hp).
    rewrite (first_resolved_not_win32 h gs_names Hp). reflexivity.
Qed.

Lemma first_candidate_some (files : list string) (name : string) :
  first_candidate files = Some name -> In name gs_names /\ In name files.
Proof.
  unfold first_candidate. intros H. apply find_some in H. destruct H as [Hn Hf].
  split; [exact Hn|].
  unfold str_in in Hf. apply existsb_exists in Hf. destruct Hf as [x [Hx Hxe]].
  apply String.eqb_eq in Hxe. subst x. exact Hx.
Qed.

Lemma scan_walk_some (h : Host) entries (path : string) :
  scan_walk h entries = Some path ->
  exists root dirs files name,
    In (root, dirs, files) entries /\ In name gs_names /\ In name files
    /\ path = os_path_join h root name.
Proof.
  induction entries as [|[[root dirs] files] rest IH]; cbn [scan_walk].
  - discriminate.
  - destruct (first_candidate files) as [name|] eqn:E.
    + intros H. injection H as <-.
      destruct (first_candidate_some files name E) as [Hn Hf].
      exists root, dirs, files, name. repeat split; auto. left; reflexivity.
    + intros H. destruct (IH H) as (r & d & f & n & Hin & Hrest).
      exists r, d, f, n. split; [right; exact Hin | exact Hrest].
Qed.

Lemma scan_dirs_some (h : Host) (path : string) :
  scan_dirs h (gs_dirs h) = Some path ->
  os_path_isdir h (os_path_join h (program_files h) "gs") = true
  /\ listed_by_walk h path.
Proof.
  unfold gs_dirs. cbn [scan_dirs].
  destruct (os_path_isdir h _); [|discriminate].
  destruct (scan_walk h _) as [p|] eqn:E; [|discriminate].
  intros H. injection H as <-. split; [reflexivity|].
  apply scan_walk_some in E. exact E.
Qed.



Lemma Return_inj {A : Type} (a b : A) : Return a = Return b -> a = b.
Proof. intros H. injection H. auto. Qed.




(** C5, as amended: a probe that raises [CalledProcessError] or
    [FileNotFoundError] is passed over and the search goes on with the next
    name; where the probes the locator makes raise nothing else, the locator
    does not raise, and absence is the value [None]. *)
Theorem locator_swallows_caught_errors (h : Host) (w : World) :
  probes_caught h = true ->
  (exists r, fst (find_ghostscript h w) = Return r)
  /\ (forall name rest e,
        sys_platform h = "win32" ->
        subprocess_check_output h [Some "where"; Some name] = Raise e ->
        isinstance e [CalledProcessError; FileNotFoundError] = true ->
        find_in_path h (name :: rest) w =
        find_in_path h rest
          {| app := app w;
             trace := (trace w ++ [Spawn [Some "where"; Some name]])%list |}).
Proof.
  intros Hc. split.
  - eexists. apply find_ghostscript_caught. exact Hc.
  - intros name rest e Hp He Hi.
    cbn [find_in_path]. rewrite Hp, String.eqb_refl.
    cbv beta iota delta [bind try_except check_output emit lift ret].
    rewrite He, Hi. reflexivity.
Qed.

Lemma locator_swallows_caught_errors_witness :
  probes_caught windows_files = true
  /\ ((exists r, fst (find_ghostscript windows_files startup_world) = Return r)
      /\ (forall name rest e,
            sys_platform windows_files = "win32" ->
            subprocess_check_output windows_files [Some "where"; Some name] = Raise e ->
            isinstance e [CalledProcessError; FileNotFoundError] = true ->
            find_in_path windows_files (name :: rest) startup_world =
            find_in_path windows_files rest
              {| app := app startup_world;
                 trace := (trace startup_world
                           ++ [Spawn [Some "where"; Some name]])%list |})).
Proof.
  split; [reflexivity|].
  apply (locator_swallows_caught_errors windows_files startup_world). reflexivity.
Defined.

(** C5, as stated, fails: when launching [where] is refused the
    [PermissionError] is not among the two classes the handler names, and it
    leaves [find_ghostscript]. *)
Lemma locator_raises_on_permission_error :
  fst (find_ghostscript locked_down_host startup_world) = Raise access_denied
  /\ ~ (exists r, fst (find_ghostscript locked_down_host startup_world) = Return r).
Proof.
  split; [reflexivity|].
  intros [r Hr]. vm_compute in Hr. discriminate.
Qed.

(** C10: off win32 the locator launches no process and leaves the world as
    it was; what it returns is what the scan returns, and a path it returns
    is a candidate name the walk of [<ProgramFiles>/gs] lists, joined to the
    directory it is listed in; when that is no directory or the walk lists no
    candidate name the result is [None]. *)
Theorem locator_off_win32 (h : Host) (w : World) :
  sys_platform h <> "win32" ->
  find_ghostscript h w = (Return (scan_dirs h (gs_dirs h)), w)
  /\ (forall path,
        scan_dirs h (gs_dirs h) = Some path ->
        os_path_isdir h (os_path_join h (program_files h) "gs") = true
        /\ listed_by_walk h path)
  /\ ((os_path_isdir h (os_path_join h (program_files h) "gs") = false
       \/ forall path, ~ listed_by_walk h path) ->
      find_ghostscript h w = (Return None, w)).
Proof.
  intros Hp.
  assert (E : find_ghostscript h w = (Return (scan_dirs h (gs_dirs h)), w)).
  { unfold find_ghostscript, bind.
    rewrite (find_in_path_not_win32 h gs_names w Hp). reflexivity. }
  split; [exact E|]. split.
  - intros path. apply scan_dirs_some.
  - intros Hn. rewrite E.
    destruct (scan_dirs h (gs_dirs h)) as [p|] eqn:Es; [|reflexivity].
    apply scan_dirs_some in Es. destruct Es as [Hd Hl].
    destruct Hn as [Hn|Hn]; [congruence | destruct (Hn p Hl)].
Qed.

(** On the sample Linux machine every [where] call would answer, none is
    made, and the [gs.exe] of the walk is returned. *)
Lemma locator_off_win32_witness :
  sys_platform linux_host <> "win32"
  /\ find_ghostscript linux_host startup_world =
     (Return (Some "C:\Program Files/gs/bin/gs.exe"), startup_world).
Proof.
  assert (Hp : sys_platform linux_host <> "win32") by (vm_compute; discriminate).
  split; [exact Hp|].
  exact (proj1 (locator_off_win32 linux_host startup_world Hp)).
Defined.

(** ** The job runner *)

(** The argument vector, whatever the job. *)
Lemma command_shape (a : App) :
  command a =
  (ghostscript_path a
   :: [Some "-sDEVICE=pdfwrite"; Some "-dCompatibilityLevel=1.4";
       Some ("-dPDFSETTINGS=/" ++ compression_level a)%string;
       Some "-dNOPAUSE"; Some "-dQUIET"; Some "-dBATCH";
       Some ("-sOutputFile=" ++ output_pdf_path a)%string]
   ++ [Some (input_pdf_path a)])%list.
Proof. reflexivity. Qed.

(** C1: for each of the four presets, with the helper at [gs], the argument
    vector is the helper, seven options and the input file last; among the
    options exactly one sets [-dPDFSETTINGS], namely
    [-dPDFSETTINGS=/<preset>], and the five fixed flags and the output-file
    flag are all there. *)
Theorem command_has_one_preset_flag (a : App) (gs : string) :
  ghostscript_path a = Some gs ->
  In (compression_level a) levels ->
  exists options,
    command a = (Some gs :: options ++ [Some (input_pdf_path a)])%list
    /\ filter is_preset_flag options =
       [Some ("-dPDFSETTINGS=/" ++ compression_level a)]
    /\ (forall flag, In flag fixed_flags -> In (Some flag) options)
    /\ In (Some ("-sOutputFile=" ++ output_pdf_path a)) options
    /\ last (command a) None = Some (input_pdf_path a)
    /\ List.length (command a) = 9%nat.
Proof.
  intros Hgs _. eexists. rewrite command_shape, Hgs.
  split; [reflexivity|].
  split; [reflexivity|].
  split.
  - intros flag Hf. cbn in Hf. cbn [In].
    repeat (destruct Hf as [<-|Hf]; [tauto|]). destruct Hf.
  - split; [cbn [In]; tauto|]. split; reflexivity.
Qed.

Lemma command_has_one_preset_flag_witness :
  ghostscript_path job_app = Some installed_gs
  /\ In (compression_level job_app) levels
  /\ exists options,
       command job_app =
       (Some installed_gs :: options ++ [Some (input_pdf_path job_app)])%list
       /\ filter is_preset_flag options = [Some "-dPDFSETTINGS=/ebook"].
Proof.
  split; [reflexivity|].
  assert (Hl : In (compression_level job_app) levels) by (cbn; tauto).
  split; [exact Hl|].
  destruct (command_has_one_preset_flag job_app installed_gs eq_refl Hl)
    as (options & Hc & Hf & _).
  exists options. split; [exact Hc | exact Hf].
Defined.

Lemma run_compression_exit_zero (h : Host) (w : World) (cp : CompletedProcess) :
  subprocess_run h (command (app w)) = Return cp ->
  run_compression h w = ran w call_on_compression_success.
Proof.
  intros Hr. unfold run_compression, ran.
  destruct w as [a t]. cbn [app trace] in *.
  cbv beta iota delta [bind try_except run_checked gets emit lift ret root_after
                       app trace].
  rewrite Hr.
  rewrite <- app_assoc. reflexivity.
Qed.

Lemma run_compression_process_error (h : Host) (w : World) (e : py_exception) :
  subprocess_run h (command (app w)) = Raise e ->
  isinstance e [CalledProcessError] = true ->
  exists text,
    bytes_decode Ignore (exc_stderr e) = Return text
    /\ run_compression h w =
       ran w (call_on_compression_error ("Ghostscript Error:" ++ LF ++ text)).
Proof.
  intros Hr Hi.
  destruct (bytes_decode_ignore_returns (exc_stderr e)) as [text Ht].
  exists text. split; [exact Ht|].
  unfold run_compression, ran.
  destruct w as [a t]. cbn [app trace] in *.
  cbv beta iota delta [bind try_except run_checked gets emit lift ret root_after
                       app trace].
  rewrite Hr, Hi, Ht.
  rewrite <- app_assoc. reflexivity.
Qed.

Lemma run_compression_launch_error (h : Host) (w : World) (e : py_exception) :
  subprocess_run h (command (app w)) = Raise e ->
  isinstance e [CalledProcessError] = false ->
  run_compression h w = ran w (call_on_compression_error (exc_str e)).
Proof.
  intros Hr Hi. unfold run_compression, ran.
  destruct w as [a t]. cbn [app trace] in *.
  cbv beta iota delta [bind try_except run_checked gets emit lift ret root_after
                       app trace].
  rewrite Hr, Hi.
  rewrite <- app_assoc. reflexivity.
Qed.

Lemma posted_app (t u : list event) : posted (t ++ u) = (posted t ++ posted u)%list.
Proof.
  induction t as [|e t IH]; [reflexivity|].
  destruct e; cbn [posted List.app]; try exact IH.
  cbn. rewrite IH. reflexivity.
Qed.

Lemma posted_ran (w : World) (cb : callback) :
  posted (trace (snd (ran w cb))) = (posted (trace w) ++ [cb])%list.
Proof. unfold ran. cbn [snd trace]. rewrite posted_app. reflexivity. Qed.

Lemma isinstance_class (e : py_exception) (c : exc_class) :
  isinstance e [c] = true <-> exc_type e = c.
Proof.
  unfold isinstance. cbn [existsb]. rewrite orb_false_r.
  destruct (exc_type e), c; cbn; split; intros H; try reflexivity; discriminate.
Qed.

(** Bytes below [80] decode to themselves. *)
Lemma utf8_decode_loop_ascii (errors : error_handler) (s : bytes) :
  forall fuel pos,
    (List.length s <= fuel)%nat ->
    Forall (fun b => (Byte.to_N b < 128)%N) s ->
    utf8_decode_loop fuel errors pos s = Return (string_of_list_byte s).
Proof.
  induction s as [|b r IH]; intros fuel pos Hl Ha.
  - destruct fuel; reflexivity.
  - destruct fuel as [|fuel]; [cbn in Hl; lia|].
    inversion Ha as [|? ? Hb Hr]; subst.
    cbn [utf8_decode_loop map utf8_step].
    apply N.ltb_lt in Hb. change (0x80)%N with 128%N. rewrite Hb.
    cbn [skipn firstn].
    rewrite IH; [reflexivity | cbn in Hl; lia | exact Hr].
Qed.

Lemma bytes_decode_ascii (errors : error_handler) (s : bytes) :
  Forall (fun b => (Byte.to_N b < 128)%N) s ->
  bytes_decode errors s = Return (string_of_list_byte s).
Proof. intros Ha. apply utf8_decode_loop_ascii; [lia | exact Ha]. Qed.

(** C6: whatever [subprocess.run] does, [run_compression] returns without
    an exception, leaves every attribute of the application as it was, and
    posts exactly one callback with [root.after]: [on_compression_success]
    when the call returned, [on_compression_error] when it raised. *)
Theorem run_compression_posts_once (h : Host) (w : World) :
  exists cb,
    run_compression h w = ran w cb
    /\ app (snd (run_compression h w)) = app w
    /\ posted (trace (snd (run_compression h w))) = (posted (trace w) ++ [cb])%list
    /\ (cb = call_on_compression_success <->
        exists cp, subprocess_run h (command (app w)) = Return cp).
Proof.
  destruct (subprocess_run h (command (app w))) as [cp|e] eqn:Hr.
  - exists call_on_compression_success.
    rewrite (run_compression_exit_zero h w cp Hr).
    repeat split; [apply posted_ran | exists cp; reflexivity].
  - destruct (isinstance e [CalledProcessError]) eqn:Hi.
    + destruct (run_compression_process_error h w e Hr Hi) as (text & _ & E).
      eexists. rewrite E.
      repeat split; [apply posted_ran | discriminate |].
      intros [cp Hcp]. discriminate.
    + eexists. rewrite (run_compression_launch_error h w e Hr Hi).
      repeat split; [apply posted_ran | discriminate |].
      intros [cp Hcp]. discriminate.
Qed.

(** C2, as amended: when [subprocess.run] raises [CalledProcessError], the
    runner posts one [on_compression_error] whose text is the line
    [Ghostscript Error:] followed by the captured error stream decoded as
    UTF-8 with the undecodable bytes dropped; decoding never raises, and an
    error stream of bytes below [80] follows the heading unchanged. *)
Theorem process_failure_reports_stderr (h : Host) (w : World) (e : py_exception) :
  subprocess_run h (command (app w)) = Raise e ->
  exc_type e = CalledProcessError ->
  exists text,
    bytes_decode Ignore (exc_stderr e) = Return text
    /\ run_compression h w =
       ran w (call_on_compression_error ("Ghostscript Error:" ++ LF ++ text))
    /\ (Forall (fun b => (Byte.to_N b < 128)%N) (exc_stderr e) ->
        text = string_of_list_byte (exc_stderr e)).
Proof.
  intros Hr Hc. apply isinstance_class in Hc.
  destruct (run_compression_process_error h w e Hr Hc) as (text & Ht & E).
  exists text. split; [exact Ht|]. split; [exact E|].
  intros Ha. rewrite (bytes_decode_ascii Ignore _ Ha) in Ht.
  apply Return_inj in Ht. symmetry. exact Ht.
Qed.

Lemma process_failure_reports_stderr_witness :
  exists e,
    subprocess_run (failing_host invalid_page_tree) (command (app job_world)) = Raise e
    /\ exc_type e = CalledProcessError
    /\ run_compression (failing_host invalid_page_tree) job_world =
       ran job_world
         (call_on_compression_error
            ("Ghostscript Error:" ++ LF ++ "error: invalid page tree")).
Proof.
  eexists. split; [reflexivity|]. split; [reflexivity|].
  destruct (process_failure_reports_stderr
              (failing_host invalid_page_tree) job_world _ eq_refl eq_refl)
    as (text & Ht & E & _).
  vm_compute in Ht. apply Return_inj in Ht. subst text. exact E.
Defined.

(** C2, as stated, fails: for the error stream [error: invalid page tree]
    the text handed over is not that text but [Ghostscript Error:], a line
    feed, and then it; and an undecodable byte is dropped, not replaced by
    U+FFFD. *)
Lemma process_failure_text_is_not_verbatim :
  posted (trace (snd (run_compression (failing_host invalid_page_tree) job_world)))
  = [call_on_compression_error ("Ghostscript Error:" ++ LF ++ "error: invalid page tree")]
  /\ posted (trace (snd (run_compression (failing_host invalid_page_tree) job_world)))
     <> [call_on_compression_error "error: invalid page tree"]
  /\ posted (trace (snd (run_compression (failing_host [x61; xff; x62]) job_world)))
     = [call_on_compression_error ("Ghostscript Error:" ++ LF ++ "ab")]
  /\ bytes_decode Replace [x61; xff; x62] = Return ("a" ++ replacement_character ++ "b").
Proof.
  split; [reflexivity|]. split; [|split; reflexivity].
  vm_compute. discriminate.
Qed.

(** ** The handlers on the controlling thread *)

(** C3, as amended: when no input path is selected (the input path is
    empty), [start_compression_thread] shows the error dialog and returns:
    nothing is launched, no worker thread is started, no attribute changes.
    Whether a selected path names a file is not looked at. *)
Theorem start_rejects_empty_input (h : Host) (w : World) :
  input_pdf_path (app w) = "" ->
  start_compression_thread h w =
  (Return tt,
   {| app := app w;
      trace := (trace w
                ++ [ShowError "Error" "Please select an input PDF file first."])%list |}).
Proof.
  intros Hi. unfold start_compression_thread.
  cbv beta iota delta [bind gets emit]. rewrite Hi. reflexivity.
Qed.

Lemma start_rejects_empty_input_witness :
  input_pdf_path (app fresh_world) = ""
  /\ start_compression_thread confirming_host fresh_world =
     (Return tt,
      {| app := app fresh_world;
         trace := [ShowError "Error" "Please select an input PDF file first."] |}).
Proof.
  split; [reflexivity|].
  exact (start_rejects_empty_input confirming_host fresh_world eq_refl).
Defined.

(** C3, as stated, fails: the selected input names no file, the user
    confirms a save location, and the worker thread is started; the worker
    then launches the process. *)
Lemma start_accepts_missing_input :
  os_path_exists confirming_host (input_pdf_path (app missing_input_world)) = false
  /\ In ThreadStart
        (trace (snd (start_compression_thread confirming_host missing_input_world)))
  /\ (exists argv,
        In (Spawn argv)
           (trace (snd (run_compression confirming_host
                          (snd (start_compression_thread confirming_host
                                                         missing_input_world)))))).
Proof.
  split; [reflexivity|]. split.
  - vm_compute. tauto.
  - eexists. vm_compute. do 2 right. left. reflexivity.
Qed.

Lemma int_truediv_MiB (n : Z) :
  int_truediv n (1024 * 1024) = Return (float_of_Z n / float_of_Z MiB)%float.
Proof. reflexivity. Qed.




Lemma on_compression_error_result (error_message : string) (w : World) :
  on_compression_error error_message w =
  (Return tt,
   {| app := after_error (app w);
      trace := (trace w
                ++ [ShowError "Compression Failed"
                      ("An error occurred during compression:" ++ LF ++ LF
                       ++ error_message)%string])%list |}).
Proof. reflexivity. Qed.

(** C8, as amended: whenever [subprocess.run] raises, be it for a nonzero
    exit or because the process could not be launched, the callback posted is
    [on_compression_error]; it returns without an exception, stops and hides
    the progress bar, re-enables the trigger button, sets the status text to
    [An error occurred.] and shows one error dialog; the selected input, the
    level and the helper path stay as they were, so the job can be started
    again. *)
Theorem error_path_reenables_trigger (h : Host) (w : World) (e : py_exception) :
  subprocess_run h (command (app w)) = Raise e ->
  exists error_message,
    run_compression h w = ran w (call_on_compression_error error_message)
    /\ run_callback h (call_on_compression_error error_message)
                    (snd (run_compression h w)) =
       (Return tt,
        {| app := after_error (app w);
           trace := (trace w
                     ++ [Spawn (command (app w));
                         After 0 (call_on_compression_error error_message);
                         ShowError "Compression Failed"
                           ("An error occurred during compression:" ++ LF ++ LF
                            ++ error_message)%string])%list |})
    /\ compress_button_state (after_error (app w)) = NORMAL
    /\ status_label_text (after_error (app w)) = "An error occurred."
    /\ progress_running (after_error (app w)) = false
    /\ progress_packed (after_error (app w)) = false
    /\ input_pdf_path (after_error (app w)) = input_pdf_path (app w)
    /\ compression_level (after_error (app w)) = compression_level (app w)
    /\ ghostscript_path (after_error (app w)) = ghostscript_path (app w).
Proof.
  intros Hr.
  assert (Hran : exists error_message,
             run_compression h w = ran w (call_on_compression_error error_message)).
  { destruct (isinstance e [CalledProcessError]) eqn:Hi.
    - destruct (run_compression_process_error h w e Hr Hi) as (text & _ & E).
      eexists. exact E.
    - eexists. exact (run_compression_launch_error h w e Hr Hi). }
  destruct Hran as [error_message E]. exists error_message.
  split; [exact E|]. rewrite E. split.
  - cbn [run_callback]. rewrite on_compression_error_result.
    unfold ran. cbn [snd app trace]. rewrite <- app_assoc. reflexivity.
  - repeat split.
Qed.

Lemma error_path_reenables_trigger_witness :
  exists e error_message,
    subprocess_run (failing_host invalid_page_tree) (command (app job_world)) = Raise e
    /\ run_compression (failing_host invalid_page_tree) job_world =
       ran job_world (call_on_compression_error error_message)
    /\ app (snd (run_callback (failing_host invalid_page_tree)
                              (call_on_compression_error error_message)
                              (snd (run_compression (failing_host invalid_page_tree)
                                                    job_world)))) =
       after_error job_app.
Proof.
  eexists.
  destruct (error_path_reenables_trigger
              (failing_host invalid_page_tree) job_world _ eq_refl)
    as (error_message & E & C & _).
  exists error_message. split; [reflexivity|]. split; [exact E|].
  rewrite C. reflexivity.
Defined.

(** C8, as stated, fails: after an error the status text is
    [An error occurred.], which is neither the text the label is created
    with nor the [Ready.] that ends a successful job. *)
Lemma error_path_leaves_error_status :
  status_label_text (app (snd (on_compression_error "gs: file not found" job_world)))
  = "An error occurred."
  /\ status_label_text (app (snd (on_compression_error "gs: file not found" job_world)))
     <> idle_status_text
  /\ status_label_text (app (snd (on_compression_error "gs: file not found" job_world)))
     <> "Ready."
  /\ status_label_text (app (snd (init windows_host startup_world))) = idle_status_text.
Proof.
  split; [reflexivity|]. split; [|split].
  - vm_compute. discriminate.
  - vm_compute. discriminate.
  - reflexivity.
Qed.

(** C9: when the input file is 0 bytes on disk, [on_compression_success]
    does not return: it raises before the dialog, and nothing is shown.  When
    the size of the output file can be read, the exception is the
    [ZeroDivisionError] of [compressed_size / original_size]. *)
Theorem success_divides_by_zero (h : Host) (w : World) :
  os_path_getsize h (input_pdf_path (app w)) = Return 0 ->
  (exists e, on_compression_success h w =
             (Raise e, {| app := before_dialog (app w); trace := trace w |}))
  /\ (forall m,
        os_path_getsize h (output_pdf_path (app w)) = Return m ->
        on_compression_success h w =
        (Raise (zero_division "float division by zero"),
         {| app := before_dialog (app w); trace := trace w |})).
Proof.
  intros Hn.
  assert (Hm : forall m,
             os_path_getsize h (output_pdf_path (app w)) = Return m ->
             on_compression_success h w =
             (Raise (zero_division "float division by zero"),
              {| app := before_dialog (app w); trace := trace w |})).
  { intros m Hm. unfold on_compression_success.
    destruct w as [a t]. cbn [app trace] in *. run_handler.
    rewrite Hn, Hm, !int_truediv_MiB. reflexivity. }
  split; [|exact Hm].
  destruct (os_path_getsize h (output_pdf_path (app w))) as [m|e] eqn:E.
  - eexists. apply (Hm m). reflexivity.
  - exists e. unfold on_compression_success.
    destruct w as [a t]. cbn [app trace] in *. run_handler.
    rewrite Hn, E, !int_truediv_MiB. reflexivity.
Qed.

Lemma success_divides_by_zero_witness :
  os_path_getsize (sizes_host 0 312) (input_pdf_path (app job_world)) = Return 0
  /\ on_compression_success (sizes_host 0 312) job_world =
     (Raise (zero_division "float division by zero"),
      {| app := before_dialog job_app; trace := [] |}).
Proof.
  split; [reflexivity|].
  exact (proj2 (success_divides_by_zero (sizes_host 0 312) job_world eq_refl)
               312 eq_refl).
Defined.

(** ** More about the locator *)

Lemma find_in_path_probes (h : Host) (names : list string) :
  sys_platform h = "win32" ->
  forall w, exists k,
    (k <= List.length names)%nat
    /\ (names <> [] -> 1 <= k)%nat
    /\ snd (find_in_path h names w) =
       {| app := app w;
          trace := (trace w ++ map where_probe (firstn k names))%list |}.
Proof.
  intros Hp.
  induction names as [|name rest IH]; intros w.
  - exists 0%nat. cbn. rewrite app_nil_r. destruct w. repeat split; auto.
    intros H; destruct (H eq_refl).
  - cbn [find_in_path]. rewrite Hp, String.eqb_refl.
    cbv beta iota delta [bind try_except check_output emit lift ret].
    assert (Stop : exists k,
               (k <= List.length (name :: rest))%nat
               /\ (name :: rest <> [] -> 1 <= k)%nat
               /\ {| app := app w;
                     trace := (trace w ++ [Spawn [Some "where"; Some name]])%list |} =
                  {| app := app w;
                     trace := (trace w ++ map where_probe (firstn k (name :: rest)))%list |}).
    { exists 1%nat. cbn. repeat split; auto with arith. }
    assert (Go : exists k,
               (k <= List.length (name :: rest))%nat
               /\ (name :: rest <> [] -> 1 <= k)%nat
               /\ snd (find_in_path h rest
                         {| app := app w;
                            trace := (trace w ++ [Spawn [Some "where"; Some name]])%list |}) =
                  {| app := app w;
                     trace := (trace w ++ map where_probe (firstn k (name :: rest)))%list |}).
    { destruct (IH {| app := app w;
                      trace := (trace w ++ [Spawn [Some "where"; Some name]])%list |})
        as (k & Hk & _ & E).
      exists (S k). cbn [List.length firstn map]. repeat split; auto with arith.
      rewrite E. cbn [app trace]. rewrite <- app_assoc. reflexivity. }
    destruct (subprocess_check_output h [Some "where"; Some name]) as [out|e].
    + destruct (bytes_decode Strict (bytes_strip out)) as [path|e].
      * destruct (os_path_exists h path); [exact Stop | exact Go].
      * destruct (isinstance e _); [exact Go | exact Stop].
    + destruct (isinstance e _); [exact Go | exact Stop].
Qed.

(** X1: whatever the host answers, and whether it returns or raises,
    [find_ghostscript] changes no attribute of the application and launches
    nothing but [where <name>] for the candidate names, in their order,
    without a gap or a repeat: at least one on win32, none elsewhere. *)
Theorem locator_probes_in_order (h : Host) (w : World) :
  exists k,
    (k <= 3)%nat
    /\ snd (find_ghostscript h w) =
       {| app := app w;
          trace := (trace w ++ map where_probe (firstn k gs_names))%list |}
    /\ (sys_platform h = "win32" -> 1 <= k)%nat
    /\ (sys_platform h <> "win32" -> k = 0%nat).
Proof.
  destruct (String.eqb (sys_platform h) "win32") eqn:Hp.
  - apply String.eqb_eq in Hp.
    destruct (find_in_path_probes h gs_names Hp w) as (k & Hk & H1 & E).
    exists k. split; [exact Hk|]. split.
    + unfold find_ghostscript, bind.
      destruct (find_in_path h gs_names w) as [[[p|]|e] w']; cbn [snd] in *; exact E.
    + split; [intros _; apply H1; discriminate | intros Hn; destruct (Hn Hp)].
  - apply String.eqb_neq in Hp.
    exists 0%nat. split; [auto with arith|]. split.
    + unfold find_ghostscript, bind.
      rewrite (find_in_path_not_win32 h gs_names w Hp). cbn. rewrite app_nil_r.
      destruct w; reflexivity.
    + split; [intros Hw; destruct (Hp Hw) | reflexivity].
Qed.

Lemma string_of_list_byte_app (a b : bytes) :
  string_of_list_byte (a ++ b)%list = string_of_list_byte a ++ string_of_list_byte b.
Proof.
  unfold string_of_list_byte.
  induction a as [|x a IH]; [reflexivity|].
  cbn [map List.app string_of_list_ascii append]. rewrite IH. reflexivity.
Qed.

(** A strict decode that succeeds hands the bytes over unchanged, and the
    other two error handlers then agree with it. *)
Lemma utf8_decode_loop_strict (errors : error_handler) :
  forall fuel pos s text,
    (List.length s <= fuel)%nat ->
    utf8_decode_loop fuel Strict pos s = Return text ->
    text = string_of_list_byte s
    /\ utf8_decode_loop fuel errors pos s = Return text.
Proof.
  induction fuel as [|fuel IH]; intros pos s text Hf.
  - destruct s; [|cbn in Hf; lia]. cbn. intros H. apply Return_inj in H.
    subst. split; reflexivity.
  - destruct s as [|b r].
    + cbn. intros H. apply Return_inj in H. subst. split; reflexivity.
    + cbn [List.length] in Hf. cbn [utf8_decode_loop].
      pose proof (utf8_step_consumes (map Byte.to_N (b :: r))) as Hn.
      destruct (utf8_step (map Byte.to_N (b :: r))) as [n| |n|];
        try discriminate.
      pose proof (skipn_shorter n b r Hn) as Hl.
      destruct (utf8_decode_loop fuel Strict (pos + n) (skipn n (b :: r)))
        as [rest|e] eqn:E; [|discriminate].
      destruct (IH (pos + n)%nat (skipn n (b :: r)) rest ltac:(lia) E) as [Hr He].
      cbn [obind]. intros H. apply Return_inj in H. subst text.
      split.
      * rewrite Hr, <- string_of_list_byte_app, firstn_skipn. reflexivity.
      * destruct errors; rewrite ?He, ?E; reflexivity.
Qed.

Lemma bytes_decode_strict (errors : error_handler) (s : bytes) (text : string) :
  bytes_decode Strict s = Return text ->
  text = string_of_list_byte s /\ bytes_decode errors s = Return text.
Proof. apply utf8_decode_loop_strict. lia. Qed.

Lemma find_in_path_found_win32 (h : Host) (names : list string) (path : string) :
  sys_platform h = "win32" ->
  forall w,
    fst (find_in_path h names w) = Return (Some path) ->
    exists name out,
      In name names
      /\ subprocess_check_output h [Some "where"; Some name] = Return out
      /\ path = string_of_list_byte (bytes_strip out)
      /\ os_path_exists h path = true.
Proof.
  intros Hp.
  induction names as [|name rest IH]; intros w.
  - cbn. discriminate.
  - cbn [find_in_path]. rewrite Hp, String.eqb_refl.
    cbv beta iota delta [bind try_except check_output emit lift ret].
    assert (Go : forall w',
               fst (find_in_path h rest w') = Return (Some path) ->
               exists name0 out,
                 In name0 (name :: rest)
                 /\ subprocess_check_output h [Some "where"; Some name0] = Return out
                 /\ path = string_of_list_byte (bytes_strip out)
                 /\ os_path_exists h path = true).
    { intros w' H. destruct (IH w' H) as (n & out & Hin & Rest).
      exists n, out. split; [right; exact Hin | exact Rest]. }
    destruct (subprocess_check_output h [Some "where"; Some name]) as [out|e] eqn:Ho.
    + destruct (bytes_decode Strict (bytes_strip out)) as [p|e] eqn:Ed.
      * destruct (os_path_exists h p) eqn:Ee; [|apply Go].
        cbn [fst]. intros H. apply Return_inj in H. injection H as <-.
        exists name, out.
        split; [left; reflexivity|]. split; [exact Ho|].
        split; [|exact Ee].
        apply (bytes_decode_strict Strict). exact Ed.
      * destruct (isinstance e _); [apply Go | cbn; discriminate].
    + destruct (isinstance e _); [apply Go | cbn; discriminate].
Qed.

Lemma find_in_path_found (h : Host) (names : list string) (path : string) (w : World) :
  fst (find_in_path h names w) = Return (Some path) ->
  sys_platform h = "win32"
  /\ exists name out,
       In name names
       /\ subprocess_check_output h [Some "where"; Some name] = Return out
       /\ path = string_of_list_byte (bytes_strip out)
       /\ os_path_exists h path = true.
Proof.
  intros H.
  destruct (String.eqb (sys_platform h) "win32") eqn:Hp.
  - apply String.eqb_eq in Hp. split; [exact Hp|].
    exact (find_in_path_found_win32 h names path Hp w H).
  - apply String.eqb_neq in Hp.
    rewrite (find_in_path_not_win32 h names w Hp) in H. discriminate.
Qed.

(** X2: a path [find_ghostscript] returns is either, on win32, the output of
    [where <name>] for a candidate name with the white space at both ends
    removed, byte for byte, and [os.path.exists] holds of it; or it is a
    candidate name the walk of the directory [<ProgramFiles>/gs] lists, joined
    to the directory it is listed in. *)
Theorem locator_result_origin (h : Host) (w : World) (path : string) :
  fst (find_ghostscript h w) = Return (Some path) ->
  (sys_platform h = "win32"
   /\ exists name out,
        In name gs_names
        /\ subprocess_check_output h [Some "where"; Some name] = Return out
        /\ path = string_of_list_byte (bytes_strip out)
        /\ os_path_exists h path = true)
  \/ (os_path_isdir h (os_path_join h (program_files h) "gs") = true
      /\ listed_by_walk h path).
Proof.
  unfold find_ghostscript, bind.
  destruct (find_in_path h gs_names w) as [[[p|]|e] w'] eqn:E; cbn [fst].
  - intros H. apply Return_inj in H. injection H as <-.
    left. apply (find_in_path_found h gs_names p w). rewrite E. reflexivity.
  - intros H. apply Return_inj in H. right. apply scan_dirs_some. exact H.
  - discriminate.
Qed.

Lemma locator_result_origin_witness :
  fst (find_ghostscript windows_host startup_world) = Return (Some gs_on_path)
  /\ ((sys_platform windows_host = "win32"
       /\ exists name out,
            In name gs_names
            /\ subprocess_check_output windows_host [Some "where"; Some name] = Return out
            /\ gs_on_path = string_of_list_byte (bytes_strip out)
            /\ os_path_exists windows_host gs_on_path = true)
      \/ (os_path_isdir windows_host
            (os_path_join windows_host (program_files windows_host) "gs") = true
          /\ listed_by_walk windows_host gs_on_path)).
Proof.
  split; [reflexivity|].
  apply (locator_result_origin windows_host startup_world gs_on_path). reflexivity.
Defined.

Lemma str_in_In (name : string) (files : list string) :
  str_in name files = true <-> In name files.
Proof.
  unfold str_in. rewrite existsb_exists. split.
  - intros (x & Hx & He). apply String.eqb_eq in He. subst. exact Hx.
  - intros H. exists name. split; [exact H | apply String.eqb_refl].
Qed.

Lemma str_in_not_In (name : string) (files : list string) :
  str_in name files = false <-> ~ In name files.
Proof.
  rewrite <- str_in_In. symmetry. apply not_true_iff_false.
Qed.

Lemma first_candidate_none (files : list string) :
  first_candidate files = None <->
  (forall name, In name gs_names -> ~ In name files).
Proof.
  unfold first_candidate. split.
  - intros H name Hn. apply str_in_not_In.
    exact (find_none _ _ H name Hn).
  - intros H. cbn [find gs_names].
    rewrite !(proj2 (str_in_not_In _ files)); [reflexivity | | |];
      apply H; cbn; tauto.
Qed.

(** The name the inner loop settles on: the first of the three. *)
Lemma first_candidate_preference (files : list string) (best : string) :
  first_candidate files = Some best ->
  In best files
  /\ (best = "gswin64c.exe"
      \/ (~ In "gswin64c.exe" files
          /\ (best = "gswin32c.exe"
              \/ (~ In "gswin32c.exe" files /\ best = "gs.exe")))).
Proof.
  intros H. split; [exact (proj2 (first_candidate_some files best H))|].
  unfold first_candidate in H. cbn [find gs_names] in H.
  destruct (str_in "gswin64c.exe" files) eqn:E64.
  - injection H as <-. left. reflexivity.
  - right. split; [apply str_in_not_In; exact E64|].
    destruct (str_in "gswin32c.exe" files) eqn:E32.
    + injection H as <-. left. reflexivity.
    + right. split; [apply str_in_not_In; exact E32|].
      destruct (str_in "gs.exe" files); [injection H as <-; reflexivity | discriminate].
Qed.

Lemma scan_walk_skips (h : Host) pre post :
  (forall root dirs files,
      In (root, dirs, files) pre ->
      forall name, In name gs_names -> ~ In name files) ->
  scan_walk h (pre ++ post) = scan_walk h post.
Proof.
  induction pre as [|[[r d] f] pre IH]; intros H; [reflexivity|].
  cbn [List.app scan_walk].
  rewrite (proj2 (first_candidate_none f)).
  - apply IH. intros root dirs files Hin. apply (H root dirs files). right. exact Hin.
  - apply (H r d f). left. reflexivity.
Qed.

(** X3: in the scan the order of the walk comes before the order of the
    names.  The first directory of the walk that lists any candidate name
    decides: the path returned is in that directory, and its name is the
    first of [gswin64c.exe], [gswin32c.exe], [gs.exe] listed there, whatever
    the directories after it hold. *)
Theorem scan_first_directory_wins (h : Host) pre root dirs files post (name : string) :
  (forall r d f,
      In (r, d, f) pre -> forall n, In n gs_names -> ~ In n f) ->
  In name gs_names ->
  In name files ->
  exists best,
    scan_walk h (pre ++ (root, dirs, files) :: post) = Some (os_path_join h root best)
    /\ In best files
    /\ (best = "gswin64c.exe"
        \/ (~ In "gswin64c.exe" files
            /\ (best = "gswin32c.exe"
                \/ (~ In "gswin32c.exe" files /\ best = "gs.exe")))).
Proof.
  intros Hpre Hn Hf.
  rewrite (scan_walk_skips h pre _ Hpre). cbn [scan_walk].
  destruct (first_candidate files) as [best|] eqn:E.
  - exists best. split; [reflexivity|]. apply first_candidate_preference. exact E.
  - destruct (proj1 (first_candidate_none files) E name Hn Hf).
Qed.

Lemma scan_first_directory_wins_witness :
  (forall r d f,
      In (r, d, f) [("D:\gs", ["old"; "new"], ["README"])] ->
      forall n, In n gs_names -> ~ In n f)
  /\ In "gs.exe" gs_names
  /\ In "gs.exe" ["gs.exe"; "gswin32c.exe"]
  /\ exists best,
       scan_walk windows_files
         ([("D:\gs", ["old"; "new"], ["README"])]
          ++ ("D:\gs\old", [], ["gs.exe"; "gswin32c.exe"])
          :: [("D:\gs\new", [], ["gswin64c.exe"])])
       = Some (os_path_join windows_files "D:\gs\old" best)
       /\ In best ["gs.exe"; "gswin32c.exe"]
       /\ (best = "gswin64c.exe"
           \/ (~ In "gswin64c.exe" ["gs.exe"; "gswin32c.exe"]
               /\ (best = "gswin32c.exe"
                   \/ (~ In "gswin32c.exe" ["gs.exe"; "gswin32c.exe"]
                       /\ best = "gs.exe")))).
Proof.
  assert (Hpre : forall r d f,
             In (r, d, f) [("D:\gs", ["old"; "new"], ["README"])] ->
             forall n, In n gs_names -> ~ In n f).
  { intros r d f [E|[]] n Hn. injection E as <- <- <-.
    cbn in Hn. intros [E|[]].
    destruct Hn as [<-|[<-|[<-|[]]]]; discriminate. }
  assert (Hn : In "gs.exe" gs_names) by (cbn; tauto).
  assert (Hf : In "gs.exe" ["gs.exe"; "gswin32c.exe"]) by (cbn; tauto).
  split; [exact Hpre|]. split; [exact Hn|]. split; [exact Hf|].
  exact (scan_first_directory_wins windows_files
           [("D:\gs", ["old"; "new"], ["README"])]
           "D:\gs\old" [] ["gs.exe"; "gswin32c.exe"]
           [("D:\gs\new", [], ["gswin64c.exe"])] "gs.exe" Hpre Hn Hf).
Defined.

Lemma scan_walk_none (h : Host) entries :
  scan_walk h entries = None <->
  (forall root dirs files,
      In (root, dirs, files) entries ->
      forall name, In name gs_names -> ~ In name files).
Proof.
  induction entries as [|[[r d] f] rest IH]; cbn [scan_walk].
  - split; [intros _ root dirs files [] | reflexivity].
  - destruct (first_candidate f) as [best|] eqn:E.
    + split; [discriminate|]. intros H. exfalso.
      destruct (first_candidate_some f best E) as [Hn Hf].
      exact (H r d f (or_introl eq_refl) best Hn Hf).
    + rewrite IH. split.
      * intros H root dirs files [Heq|Hin].
        -- injection Heq as <- <- <-. apply first_candidate_none. exact E.
        -- apply (H root dirs files Hin).
      * intros H root dirs files Hin. apply (H root dirs files). right. exact Hin.
Qed.

(** X4: the scan comes back empty exactly when [<ProgramFiles>/gs] is no
    directory or no directory of its walk lists a file named
    [gswin64c.exe], [gswin32c.exe] or [gs.exe]; such a file anywhere below
    is found. *)
Theorem scan_finds_nothing_iff (h : Host) :
  scan_dirs h (gs_dirs h) = None <->
  (os_path_isdir h (os_path_join h (program_files h) "gs") = false
   \/ forall root dirs files,
       In (root, dirs, files) (os_walk h (os_path_join h (program_files h) "gs")) ->
       forall name, In name gs_names -> ~ In name files).
Proof.
  unfold gs_dirs. cbn [scan_dirs].
  destruct (os_path_isdir h (os_path_join h (program_files h) "gs")).
  - destruct (scan_walk h _) as [p|] eqn:E.
    + split; [discriminate|]. intros [H|H]; [discriminate|].
      apply (proj2 (scan_walk_none h _)) in H. congruence.
    + split; [|reflexivity]. intros _. right.
      apply (proj1 (scan_walk_none h _)). exact E.
  - split; [left|]; reflexivity.
Qed.

(** ** More about the handlers *)

Lemma find_ghostscript_probes (h : Host) (w : World) :
  exists k,
    (k <= 3)%nat
    /\ snd (find_ghostscript h w) =
       {| app := app w;
          trace := (trace w ++ map where_probe (firstn k gs_names))%list |}.
Proof.
  destruct (String.eqb (sys_platform h) "win32") eqn:Hp.
  - apply String.eqb_eq in Hp.
    destruct (find_in_path_probes h gs_names Hp w) as (k & Hk & _ & E).
    exists k. split; [exact Hk|].
    unfold find_ghostscript, bind.
    destruct (find_in_path h gs_names w) as [[[p|]|e] w']; cbn [snd] in *; exact E.
  - apply String.eqb_neq in Hp.
    exists 0%nat. split; [auto with arith|].
    unfold find_ghostscript, bind.
    rewrite (find_in_path_not_win32 h gs_names w Hp). cbn. rewrite app_nil_r.
    destruct w; reflexivity.
Qed.

Lemma start_compression_thread_result (h : Host) (w : World) :
  start_compression_thread h w =
  (Return tt,
   if String.eqb (input_pdf_path (app w)) "" then
     {| app := app w;
        trace := (trace w
                  ++ [ShowError "Error" "Please select an input PDF file first."])%list |}
   else if py_not (ghostscript_path (app w)) then
     {| app := app w;
        trace := (trace w
                  ++ [ShowWarning "Ghostscript Not Found" ghostscript_warning_text])%list |}
   else if String.eqb (asksaveasfilename h (initialfile h (app w))) "" then
     {| app := set_status_label_text "Save cancelled. Ready." (app w);
        trace := (trace w ++ [AskSaveAs (initialfile h (app w))])%list |}
   else
     {| app := after_start (asksaveasfilename h (initialfile h (app w))) (app w);
        trace := (trace w ++ [AskSaveAs (initialfile h (app w)); ThreadStart])%list |}).
Proof.
  unfold start_compression_thread, show_ghostscript_warning, initialfile.
  destruct w as [a t].
  cbv beta iota delta [bind gets emit modify app trace].
  destruct (String.eqb (input_pdf_path a) ""); [reflexivity|].
  cbv beta iota delta [app trace].
  destruct (py_not (ghostscript_path a)); [reflexivity|].
  cbv beta iota delta [app trace].
  destruct (String.eqb (asksaveasfilename h _) ""); [reflexivity|].
  cbv beta iota delta [app trace]. rewrite <- app_assoc. reflexivity.
Qed.

Lemma select_input_file_result (h : Host) (filepath : string) (w : World) :
  select_input_file h filepath w =
  (Return tt,
   if String.eqb filepath "" then w
   else {| app := set_status_label_text
                    ("Selected: " ++ os_path_basename h filepath)
                    (set_input_pdf_path filepath (app w));
           trace := trace w |}).
Proof.
  unfold select_input_file.
  destruct (String.eqb filepath ""); reflexivity.
Qed.

Lemma run_compression_result (h : Host) (w : World) :
  exists cb, run_compression h w = ran w cb.
Proof.
  destruct (subprocess_run h (command (app w))) as [cp|e] eqn:Hr.
  - eexists. exact (run_compression_exit_zero h w cp Hr).
  - destruct (isinstance e [CalledProcessError]) eqn:Hi.
    + destruct (run_compression_process_error h w e Hr Hi) as (text & _ & E).
      eexists. exact E.
    + eexists. exact (run_compression_launch_error h w e Hr Hi).
Qed.

Lemma on_compression_success_cases (h : Host) (w : World) :
  (exists e,
      on_compression_success h w =
      (Raise e, {| app := before_dialog (app w); trace := trace w |}))
  \/ (exists text,
         on_compression_success h w =
         (Return tt,
          {| app := after_success (app w);
             trace := (trace w ++ [ShowInfo "Success" text])%list |})).
Proof.
  unfold on_compression_success.
  destruct w as [a t]. cbn [app trace]. run_handler.
  destruct (os_path_getsize h (input_pdf_path a)) as [n|e];
    [|left; eexists; reflexivity].
  rewrite int_truediv_MiB.
  destruct (os_path_getsize h (output_pdf_path a)) as [m|e];
    [|left; eexists; reflexivity].
  rewrite int_truediv_MiB.
  destruct (float_truediv _ _) as [q|e]; [|left; eexists; reflexivity].
  right. eexists. reflexivity.
Qed.

Lemma init_result (h : Host) (w : World) :
  let w0 := {| app := set_compression_level "ebook" (app w); trace := trace w |} in
  match find_ghostscript h w0 with
  | (Raise e, w1) => init h w = (Raise e, w1)
  | (Return gs, w1) =>
    init h w =
    (Return tt,
     {| app := after_init gs (app w);
        trace := (trace w1
                  ++ if py_not gs
                     then [ShowWarning "Ghostscript Not Found" ghostscript_warning_text]
                     else [])%list |})
  end.
Proof.
  cbv zeta.
  destruct (find_ghostscript_probes h
              {| app := set_compression_level "ebook" (app w); trace := trace w |})
    as (k & _ & E).
  unfold init, create_widgets, show_ghostscript_warning.
  cbv beta iota delta [bind gets emit modify ret]. cbn [app trace].
  destruct (find_ghostscript h _) as [[gs|e] w1]; [|reflexivity].
  cbn [snd] in E. subst w1. cbn [app trace].
  change (ghostscript_path
            (set_progress_packed false
               (set_status_label_text idle_status_text
                  (set_progress_running false
                     (set_compress_button_state NORMAL
                        (set_ghostscript_path gs
                           (set_compression_level "ebook" (app w)))))))) with gs.
  destruct (py_not gs); [reflexivity|].
  cbn [app trace]. rewrite app_nil_r. reflexivity.
Qed.

(** X5: [start_compression_thread] always returns, and does one of four
    things.  With no input selected it shows the error dialog and changes
    nothing.  With an input but no helper it shows the warning dialog and
    changes nothing.  With both, it opens the save dialog; when that is
    cancelled it sets the status to [Save cancelled. Ready.] and changes
    nothing else; when it is confirmed it stores the chosen path, disables
    the button, shows the running progress bar and starts the worker thread.
    So the thread is started exactly when all three tests pass, and the
    method never launches a process and never posts a callback itself. *)
Theorem job_starts_iff_accepted (h : Host) (w : World) :
  exists a' evs,
    start_compression_thread h w =
    (Return tt, {| app := a'; trace := (trace w ++ evs)%list |})
    /\ (In ThreadStart evs <-> accepted h (app w) = true)
    /\ (input_pdf_path (app w) = "" ->
        a' = app w
        /\ evs = [ShowError "Error" "Please select an input PDF file first."])
    /\ (input_pdf_path (app w) <> "" ->
        py_not (ghostscript_path (app w)) = true ->
        a' = app w
        /\ evs = [ShowWarning "Ghostscript Not Found" ghostscript_warning_text])
    /\ (input_pdf_path (app w) <> "" ->
        py_not (ghostscript_path (app w)) = false ->
        asksaveasfilename h (initialfile h (app w)) = "" ->
        a' = set_status_label_text "Save cancelled. Ready." (app w)
        /\ evs = [AskSaveAs (initialfile h (app w))])
    /\ (accepted h (app w) = true ->
        a' = after_start (asksaveasfilename h (initialfile h (app w))) (app w)
        /\ evs = [AskSaveAs (initialfile h (app w)); ThreadStart])
    /\ (accepted h (app w) = false ->
        input_pdf_path (app w) = ""
        \/ py_not (ghostscript_path (app w)) = true
        \/ asksaveasfilename h (initialfile h (app w)) = "")
    /\ (forall argv, ~ In (Spawn argv) evs)
    /\ (forall ms cb, ~ In (After ms cb) evs).
Proof.
  rewrite start_compression_thread_result. unfold accepted.
  destruct (String.eqb (input_pdf_path (app w)) "") eqn:Ei.
  - apply String.eqb_eq in Ei. cbn [negb andb].
    do 2 eexists. split; [reflexivity|].
    repeat split; unfold not; intros; try discriminate; try congruence; try tauto;
      try (match goal with
           | H : In _ _ |- _ => cbn [In] in H; intuition discriminate
           end).
  - apply String.eqb_neq in Ei.
    destruct (py_not (ghostscript_path (app w))) eqn:Eg.
    + cbn [negb andb]. do 2 eexists. split; [reflexivity|].
      repeat split; unfold not; intros; try discriminate; try congruence; try tauto;
        try (match goal with
             | H : In _ _ |- _ => cbn [In] in H; intuition discriminate
             end).
    + destruct (String.eqb (asksaveasfilename h (initialfile h (app w))) "") eqn:Eo.
      * apply String.eqb_eq in Eo. cbn [negb andb].
        do 2 eexists. split; [reflexivity|].
        repeat split; unfold not; intros; try discriminate; try congruence; try tauto;
          try (match goal with
               | H : In _ _ |- _ => cbn [In] in H; intuition discriminate
               end).
      * apply String.eqb_neq in Eo. cbn [negb andb].
        do 2 eexists. split; [reflexivity|].
        repeat split; unfold not; intros; try discriminate; try congruence;
          try (cbn [In]; tauto);
          try (match goal with
               | H : In _ _ |- _ => cbn [In] in H; intuition discriminate
               end).
Qed.

(** X6: [__init__] stands or falls with the locator.  When
    [find_ghostscript] raises, [__init__] raises the same exception before a
    widget is configured or a dialog shown.  When it returns [gs], [__init__]
    returns, keeps [gs], leaves the button enabled, the progress bar hidden
    and the status at its idle text, and shows the warning dialog exactly
    when [gs] is [None] or empty. *)
Theorem init_follows_locator (h : Host) (w : World) :
  let w0 := {| app := set_compression_level "ebook" (app w); trace := trace w |} in
  (forall e,
      fst (find_ghostscript h w0) = Raise e ->
      init h w = (Raise e, snd (find_ghostscript h w0))
      /\ app (snd (init h w)) = set_compression_level "ebook" (app w))
  /\ (forall gs,
        fst (find_ghostscript h w0) = Return gs ->
        fst (init h w) = Return tt
        /\ app (snd (init h w)) = after_init gs (app w)
        /\ trace (snd (init h w)) =
           (trace (snd (find_ghostscript h w0))
            ++ if py_not gs
               then [ShowWarning "Ghostscript Not Found" ghostscript_warning_text]
               else [])%list).
Proof.
  cbv zeta. pose proof (init_result h w) as R. cbv zeta in R.
  destruct (find_ghostscript_probes h
              {| app := set_compression_level "ebook" (app w); trace := trace w |})
    as (k & _ & E).
  destruct (find_ghostscript h _) as [[gs|e] w1]; cbn [fst snd] in *.
  - split; [discriminate|]. intros gs' H. apply Return_inj in H. subst gs'.
    rewrite R. repeat split.
  - split; [|discriminate]. intros e' H. injection H as <-.
    rewrite R. split; [reflexivity|]. cbn [snd]. rewrite E. reflexivity.
Qed.

(** X7: [on_compression_success] re-enables the button and stops and hides
    the progress bar on every path, also when it raises.  Either it returns,
    having shown one success dialog, with the status [Ready.]; or it raises
    before the dialog, nothing is shown, and the status stays at
    [Compression successful!].  It raises whenever the size of the input
    file cannot be read. *)
Theorem success_handler_always_reenables (h : Host) (w : World) :
  let r := on_compression_success h w in
  compress_button_state (app (snd r)) = NORMAL
  /\ progress_running (app (snd r)) = false
  /\ progress_packed (app (snd r)) = false
  /\ ((exists text,
          fst r = Return tt
          /\ trace (snd r) = (trace w ++ [ShowInfo "Success" text])%list
          /\ status_label_text (app (snd r)) = "Ready.")
      \/ (exists e,
             fst r = Raise e
             /\ trace (snd r) = trace w
             /\ status_label_text (app (snd r)) = "Compression successful!"))
  /\ (forall e,
        os_path_getsize h (input_pdf_path (app w)) = Raise e -> fst r = Raise e).
Proof.
  cbv zeta.
  assert (Hin : forall e,
             os_path_getsize h (input_pdf_path (app w)) = Raise e ->
             fst (on_compression_success h w) = Raise e).
  { intros e He. unfold on_compression_success.
    destruct w as [a t]. cbn [app trace] in *. run_handler. rewrite He. reflexivity. }
  destruct (on_compression_success_cases h w) as [[e E]|[text E]]; rewrite E in *;
    cbn [fst snd app trace]; repeat split; auto.
  - right. exists e. repeat split.
  - left. exists text. repeat split.
Qed.

(** X8: when the error stream of the failed process is valid UTF-8, the
    text handed to [on_compression_error] is the heading
    [Ghostscript Error:], a line feed, and the error stream byte for byte:
    nothing is dropped. *)
Theorem valid_stderr_is_kept (h : Host) (w : World) (e : py_exception)
        (text : string) :
  subprocess_run h (command (app w)) = Raise e ->
  exc_type e = CalledProcessError ->
  bytes_decode Strict (exc_stderr e) = Return text ->
  run_compression h w =
  ran w (call_on_compression_error
           ("Ghostscript Error:" ++ LF ++ string_of_list_byte (exc_stderr e))).
Proof.
  intros Hr Hc Hs. apply isinstance_class in Hc.
  destruct (run_compression_process_error h w e Hr Hc) as (t & Ht & E).
  destruct (bytes_decode_strict Ignore _ _ Hs) as [Heq Hi].
  rewrite Hi in Ht. apply Return_inj in Ht. subst t. rewrite <- Heq. exact E.
Qed.

Lemma valid_stderr_is_kept_witness :
  exists e text,
    subprocess_run (failing_host [xc3; xa9; x21]) (command (app job_world)) = Raise e
    /\ exc_type e = CalledProcessError
    /\ bytes_decode Strict (exc_stderr e) = Return text
    /\ run_compression (failing_host [xc3; xa9; x21]) job_world =
       ran job_world
         (call_on_compression_error
            ("Ghostscript Error:" ++ LF ++ string_of_list_byte [xc3; xa9; x21])).
Proof.
  eexists. eexists.
  split; [reflexivity|]. split; [reflexivity|]. split; [reflexivity|].
  exact (valid_stderr_is_kept (failing_host [xc3; xa9; x21]) job_world _ _
           eq_refl eq_refl eq_refl).
Defined.

(** ** The states the application reaches *)

Lemma eqb_empty_false (s : string) : String.eqb s "" = false -> s <> "".
Proof. intros H. apply String.eqb_neq. exact H. Qed.

(** Closes a goal [consistent _] from the parts of the same fact about the
    world before. *)
Ltac consistency :=
  unfold consistent in *; cbn in *;
  repeat match goal with H : _ /\ _ |- _ => destruct H end;
  repeat split; intros; try discriminate; try tauto;
  auto using eqb_empty_false;
  try (match goal with H : _ -> _ /\ _ |- _ => apply H; assumption end).

Lemma perform_consistent (h : Host) (a : action) (w : World) :
  offered a -> consistent (app w) -> consistent (app (snd (perform h a w))).
Proof.
  intros Ha Hc. destruct a as [filepath|value| | |cb]; cbn [perform].
  - rewrite select_input_file_result. cbn [snd].
    destruct (String.eqb filepath "") eqn:E; [exact Hc|].
    cbn [app]. consistency.
  - cbn [offered] in Ha. unfold choose_level, modify. cbn [snd app]. consistency.
  - rewrite start_compression_thread_result. cbn [snd].
    destruct (String.eqb (input_pdf_path (app w)) "") eqn:Ei; [exact Hc|].
    destruct (py_not (ghostscript_path (app w))) eqn:Eg; [exact Hc|].
    destruct (String.eqb (asksaveasfilename h (initialfile h (app w))) "") eqn:Eo;
      cbn [app]; consistency.
  - destruct (run_compression_result h w) as [cb E]. rewrite E. exact Hc.
  - destruct cb as [|error_message]; cbn [run_callback].
    + destruct (on_compression_success_cases h w) as [[e E]|[text E]]; rewrite E;
        cbn [snd app]; consistency.
    + rewrite on_compression_error_result. cbn [snd app]. consistency.
Qed.

Lemma init_consistent (h : Host) :
  fst (init h startup_world) = Return tt ->
  consistent (app (snd (init h startup_world))).
Proof.
  pose proof (init_result h startup_world) as R. cbv zeta in R.
  destruct (find_ghostscript h _) as [[gs|e] w1]; rewrite R; cbn [fst snd app].
  - intros _. unfold consistent. cbn. repeat split; try discriminate; tauto.
  - discriminate.
Qed.

Lemma reachable_helper (w : World) : reachable w -> consistent (app w).
Proof.
  intros R. induction R as [h Hi|h a w R IH Ha].
  - apply init_consistent. exact Hi.
  - apply perform_consistent; assumption.
Qed.

(** X9: in every world the application reaches the controls agree: the
    level is one of [screen], [ebook], [printer], [prepress]; the button is
    disabled exactly while the progress bar runs, and the bar is shown
    exactly while it runs; and while the button is disabled an input path and
    an output path are set and a helper is known. *)
Theorem reachable_consistent (w : World) :
  reachable w -> consistent (app w).
Proof. exact (reachable_helper w). Qed.

Lemma reachable_consistent_witness :
  reachable
    (snd (perform confirming_host StartCompression
            (snd (perform windows_host (SelectInputFile "C:\docs\report.pdf")
                    (snd (init windows_host startup_world))))))
  /\ consistent
       (app (snd (perform confirming_host StartCompression
                    (snd (perform windows_host (SelectInputFile "C:\docs\report.pdf")
                            (snd (init windows_host startup_world))))))).
Proof.
  assert (R : reachable
                (snd (perform confirming_host StartCompression
                        (snd (perform windows_host (SelectInputFile "C:\docs\report.pdf")
                                (snd (init windows_host startup_world))))))).
  { apply reachable_step; [|exact I].
    apply reachable_step; [|exact I].
    apply reachable_init. reflexivity. }
  split; [exact R|]. exact (reachable_consistent _ R).
Defined.

Lemma perform_keeps_helper (h : Host) (a : action) (w : World) :
  ghostscript_path (app (snd (perform h a w))) = ghostscript_path (app w).
Proof.
  destruct a as [filepath|value| | |cb]; cbn [perform].
  - rewrite select_input_file_result. cbn [snd].
    destruct (String.eqb filepath ""); reflexivity.
  - reflexivity.
  - rewrite start_compression_thread_result. cbn [snd].
    destruct (String.eqb (input_pdf_path (app w)) ""); [reflexivity|].
    destruct (py_not (ghostscript_path (app w))); [reflexivity|].
    destruct (String.eqb (asksaveasfilename h (initialfile h (app w))) "");
      reflexivity.
  - destruct (run_compression_result h w) as [cb E]. rewrite E. reflexivity.
  - destruct cb as [|error_message]; cbn [run_callback].
    + destruct (on_compression_success_cases h w) as [[e E]|[text E]]; rewrite E;
        reflexivity.
    + rewrite on_compression_error_result. reflexivity.
Qed.

Lemma perform_thread_needs_helper (h : Host) (a : action) (w : World) :
  In ThreadStart (trace (snd (perform h a w))) ->
  In ThreadStart (trace w) \/ py_not (ghostscript_path (app w)) = false.
Proof.
  destruct a as [filepath|value| | |cb]; cbn [perform].
  - rewrite select_input_file_result. cbn [snd].
    destruct (String.eqb filepath ""); cbn [trace]; auto.
  - cbn. auto.
  - rewrite start_compression_thread_result. cbn [snd].
    destruct (String.eqb (input_pdf_path (app w)) "");
      [|destruct (py_not (ghostscript_path (app w)));
        [|destruct (String.eqb (asksaveasfilename h (initialfile h (app w))) "")]];
      cbn [trace]; auto; intros H; apply in_app_or in H;
        destruct H as [H|H]; auto; cbn in H; intuition discriminate.
  - destruct (run_compression_result h w) as [cb E]. rewrite E.
    unfold ran. cbn [snd trace]. intros H. apply in_app_or in H.
    destruct H as [H|H]; auto. cbn in H. intuition discriminate.
  - destruct cb as [|error_message]; cbn [run_callback].
    + destruct (on_compression_success_cases h w) as [[e E]|[text E]]; rewrite E;
        cbn [snd trace]; auto.
      intros H. apply in_app_or in H.
      destruct H as [H|H]; auto. cbn in H. intuition discriminate.
    + rewrite on_compression_error_result. cbn [snd trace].
      intros H. apply in_app_or in H.
      destruct H as [H|H]; auto. cbn in H. intuition discriminate.
Qed.

Lemma init_starts_no_thread (h : Host) :
  ~ In ThreadStart (trace (snd (init h startup_world))).
Proof.
  pose proof (init_result h startup_world) as R. cbv zeta in R.
  destruct (find_ghostscript_probes h
              {| app := set_compression_level "ebook" (app startup_world);
                 trace := trace startup_world |}) as (k & _ & E).
  destruct (find_ghostscript h _) as [[gs|e] w1]; rewrite R; cbn [snd trace] in *;
    subst w1; cbn [trace List.app].
  - intros H. apply in_app_or in H. destruct H as [H|H].
    + apply in_map_iff in H. destruct H as (n & Hn & _). discriminate.
    + destruct (py_not gs); cbn in H; intuition discriminate.
  - intros H. apply in_map_iff in H. destruct H as (n & Hn & _). discriminate.
Qed.

(** X10: when [__init__] found no helper, nothing the user does afterwards
    starts a worker thread, and the button is never disabled: the helper path
    is looked for once and never again. *)
Theorem no_helper_no_job (w : World) :
  reachable w ->
  py_not (ghostscript_path (app w)) = true ->
  ~ In ThreadStart (trace w) /\ compress_button_state (app w) = NORMAL.
Proof.
  intros R. 
  assert (Hb : py_not (ghostscript_path (app w)) = true ->
               compress_button_state (app w) = NORMAL).
  { intros Hg. destruct (reachable_helper w R) as (_ & _ & _ & Hd).
    destruct (compress_button_state (app w)); [reflexivity|].
    destruct (Hd eq_refl) as (_ & _ & Hn). congruence. }
  intros Hg. split; [|exact (Hb Hg)]. clear Hb.
  induction R as [h Hi|h a w R IH Ha].
  - apply init_starts_no_thread.
  - rewrite perform_keeps_helper in Hg. intros H.
    destruct (perform_thread_needs_helper h a w H) as [H'|H']; [|congruence].
    exact (IH Hg H').
Qed.

Lemma no_helper_no_job_witness :
  reachable helpless_world
  /\ py_not (ghostscript_path (app helpless_world)) = true
  /\ ~ In ThreadStart (trace helpless_world)
  /\ compress_button_state (app helpless_world) = NORMAL.
Proof.
  assert (R : reachable helpless_world).
  { unfold helpless_world.
    apply reachable_step; [|exact I].
    apply reachable_step; [|exact I].
    apply reachable_init. reflexivity. }
  split; [exact R|]. split; [reflexivity|].
  exact (no_helper_no_job helpless_world R eq_refl).
Defined.

(** ** Whole jobs *)

Lemma accepted_parts (h : Host) (a : App) :
  accepted h a = true ->
  String.eqb (input_pdf_path a) "" = false
  /\ py_not (ghostscript_path a) = false
  /\ String.eqb (asksaveasfilename h (initialfile h a)) "" = false.
Proof.
  unfold accepted. intros H.
  apply andb_true_iff in H. destruct H as [H Ho].
  apply andb_true_iff in H. destruct H as [Hi Hg].
  repeat split; apply negb_true_iff; assumption.
Qed.

Lemma accepted_start (h : Host) (w : World) :
  accepted h (app w) = true ->
  start_compression_thread h w =
  (Return tt,
   {| app := after_start (asksaveasfilename h (initialfile h (app w))) (app w);
      trace := (trace w ++ [AskSaveAs (initialfile h (app w)); ThreadStart])%list |}).
Proof.
  intros H. destruct (accepted_parts h (app w) H) as (Hi & Hg & Ho).
  rewrite start_compression_thread_result, Hi, Hg, Ho. reflexivity.
Qed.



(** X12: a failed job can be tried again.  When an accepted job ends with
    [subprocess.run] raising, the error callback leaves the button enabled
    and the selection and the helper untouched; pressing the button again
    asks for a save location again, and the job is accepted exactly when that
    dialog is confirmed, whatever path the failed job was to write. *)
Theorem failed_job_can_be_retried (h1 h2 h3 h4 : Host) (w : World)
        (e : py_exception) :
  let w1 := snd (start_compression_thread h1 w) in
  accepted h1 (app w) = true ->
  subprocess_run h2 (command (app w1)) = Raise e ->
  exists error_message,
    run_compression h2 w1 = ran w1 (call_on_compression_error error_message)
    /\ let w3 := snd (run_callback h3 (call_on_compression_error error_message)
                        (snd (run_compression h2 w1))) in
       compress_button_state (app w3) = NORMAL
       /\ input_pdf_path (app w3) = input_pdf_path (app w)
       /\ ghostscript_path (app w3) = ghostscript_path (app w)
       /\ accepted h4 (app w3) =
          negb (String.eqb (asksaveasfilename h4 (initialfile h4 (app w))) "")
       /\ (accepted h4 (app w3) = true ->
           start_compression_thread h4 w3 =
           (Return tt,
            {| app := after_start (asksaveasfilename h4 (initialfile h4 (app w)))
                                  (app w3);
               trace := (trace w3
                         ++ [AskSaveAs (initialfile h4 (app w)); ThreadStart])%list |})).
Proof.
  cbv zeta. intros Ha Hr.
  destruct (accepted_parts h1 (app w) Ha) as (Hi & Hg & Ho).
  rewrite (accepted_start h1 w Ha) in *. cbn [snd] in *.
  set (w1 := {| app := after_start _ (app w); trace := _ |}) in *.
  assert (Hran : exists error_message,
             run_compression h2 w1 = ran w1 (call_on_compression_error error_message)).
  { destruct (isinstance e [CalledProcessError]) eqn:Hc.
    - destruct (run_compression_process_error h2 w1 e Hr Hc) as (text & _ & E).
      eexists. exact E.
    - eexists. exact (run_compression_launch_error h2 w1 e Hr Hc). }
  destruct Hran as [error_message E]. exists error_message.
  split; [exact E|]. rewrite E. cbn [run_callback].
  rewrite on_compression_error_result. unfold ran. cbn [snd app].
  assert (Hacc : accepted h4 (after_error (app w1)) =
                 negb (String.eqb (asksaveasfilename h4 (initialfile h4 (app w))) "")).
  { unfold accepted, initialfile. subst w1. cbn [app].
    change (input_pdf_path (after_error (after_start _ (app w))))
      with (input_pdf_path (app w)).
    change (ghostscript_path (after_error (after_start _ (app w))))
      with (ghostscript_path (app w)).
    rewrite Hi, Hg. reflexivity. }
  repeat split; try exact Hacc.
  intros Hacc'.
  match goal with
  | |- start_compression_thread h4 ?W = _ => exact (accepted_start h4 W Hacc')
  end.
Qed.

Lemma failed_job_can_be_retried_witness :
  accepted saving_host (app selected_world) = true
  /\ (exists e,
         subprocess_run (failing_host invalid_page_tree)
           (command (app (snd (start_compression_thread saving_host selected_world))))
         = Raise e)
  /\ exists error_message,
       run_compression (failing_host invalid_page_tree)
         (snd (start_compression_thread saving_host selected_world)) =
       ran (snd (start_compression_thread saving_host selected_world))
           (call_on_compression_error error_message)
       /\ accepted confirming_host
            (app (snd (run_callback windows_files
                         (call_on_compression_error error_message)
                         (snd (run_compression (failing_host invalid_page_tree)
                                 (snd (start_compression_thread saving_host
                                                                selected_world)))))))
          = true.
Proof.
  split; [reflexivity|]. split; [eexists; reflexivity|].
  destruct (failed_job_can_be_retried saving_host (failing_host invalid_page_tree)
              windows_files confirming_host selected_world _ eq_refl eq_refl)
    as (error_message & E & _ & _ & _ & Hacc & _).
  exists error_message. split; [exact E|]. rewrite Hacc. reflexivity.
Defined.

(** ** What the user chose last *)

Lemma perform_keeps_choices (h : Host) (a : action) (w : World) :
  compression_level (app (snd (perform h a w))) =
  match a with
  | ChooseLevel value => value
  | _ => compression_level (app w)
  end
  /\ input_pdf_path (app (snd (perform h a w))) =
     match a with
     | SelectInputFile filepath =>
       if String.eqb filepath "" then input_pdf_path (app w) else filepath
     | _ => input_pdf_path (app w)
     end.
Proof.
  destruct a as [filepath|value| | |cb]; cbn [perform].
  - rewrite select_input_file_result. cbn [snd].
    destruct (String.eqb filepath ""); split; reflexivity.
  - split; reflexivity.
  - rewrite start_compression_thread_result. cbn [snd].
    destruct (String.eqb (input_pdf_path (app w)) ""); [split; reflexivity|].
    destruct (py_not (ghostscript_path (app w))); [split; reflexivity|].
    destruct (String.eqb (asksaveasfilename h (initialfile h (app w))) "");
      split; reflexivity.
  - destruct (run_compression_result h w) as [cb E]. rewrite E. split; reflexivity.
  - destruct cb as [|error_message]; cbn [run_callback].
    + destruct (on_compression_success_cases h w) as [[e E]|[text E]]; rewrite E;
        split; reflexivity.
    + rewrite on_compression_error_result. split; reflexivity.
Qed.

(** X13: after any run of actions the level is the value of the radio
    button picked last, the input path is the last answer of the open dialog
    that was not a cancel, and the helper path is the one the run began
    with: no handler resets a choice, a cancelled open dialog keeps the
    selection, and jobs, whether they succeed or fail, change none of the
    three. *)
Theorem choices_are_kept (steps : list (Host * action)) (w : World) :
  compression_level (app (perform_all steps w)) =
  last_level steps (compression_level (app w))
  /\ input_pdf_path (app (perform_all steps w)) =
     last_selection steps (input_pdf_path (app w))
  /\ ghostscript_path (app (perform_all steps w)) = ghostscript_path (app w).
Proof.
  revert w. induction steps as [|[h a] rest IH]; intros w.
  - repeat split.
  - cbn [perform_all]. destruct (IH (snd (perform h a w))) as (Hl & Hi & Hg).
    destruct (perform_keeps_choices h a w) as [El Ei].
    rewrite Hl, Hi, Hg, El, Ei, perform_keeps_helper.
    destruct a; repeat split.
Qed.

(** ** The answer of [where] *)

Lemma bytes_lstrip_spaces (ws s : bytes) :
  forallb is_space ws = true ->
  bytes_lstrip (ws ++ s)%list = bytes_lstrip s.
Proof.
  induction ws as [|b ws IH]; intros H; [reflexivity|].
  cbn [forallb] in H. apply andb_true_iff in H. destruct H as [Hb Hw].
  cbn [List.app bytes_lstrip]. rewrite Hb. exact (IH Hw).
Qed.

Lemma bytes_lstrip_tight (s : bytes) : starts_tight s -> bytes_lstrip s = s.
Proof.
  destruct s as [|b r]; [reflexivity|]. cbn. intros H. rewrite H. reflexivity.
Qed.

Lemma starts_tight_app (s t : bytes) :
  s <> [] -> starts_tight s -> starts_tight (s ++ t)%list.
Proof. destruct s; [intros H; destruct (H eq_refl) | intros _ H; exact H]. Qed.

Lemma forallb_rev {A : Type} (f : A -> bool) (l : list A) :
  forallb f (rev l) = forallb f l.
Proof.
  induction l as [|x l IH]; [reflexivity|].
  cbn [rev forallb]. rewrite forallb_app, IH. cbn. rewrite andb_true_r.
  apply andb_comm.
Qed.

(** [strip] removes white space around a core that has none at its ends. *)
Lemma bytes_strip_padding (pre core post : bytes) :
  forallb is_space pre = true ->
  forallb is_space post = true ->
  starts_tight core -> starts_tight (rev core) ->
  bytes_strip (pre ++ core ++ post)%list = core.
Proof.
  intros Hpre Hpost Hc Hr. unfold bytes_strip, bytes_rstrip.
  rewrite (bytes_lstrip_spaces pre _ Hpre).
  destruct core as [|b r].
  - cbn [List.app].
    assert (E : bytes_lstrip post = []).
    { rewrite <- (app_nil_r post), (bytes_lstrip_spaces post [] Hpost). reflexivity. }
    rewrite E. reflexivity.
  - rewrite (bytes_lstrip_tight ((b :: r) ++ post)%list) by exact Hc.
    rewrite rev_app_distr.
    rewrite (bytes_lstrip_spaces (rev post)) by (rewrite forallb_rev; exact Hpost).
    rewrite (bytes_lstrip_tight _ Hr). apply rev_involutive.
Qed.

(** X14: on win32, when [where <name>] prints one path, padded with any
    white space before and after (the line end, for one), and the path is
    valid UTF-8 and exists, the name resolves to exactly that path; if it is
    the first candidate name, that path is what [find_ghostscript] returns,
    after a single probe. *)
Theorem where_line_is_the_path (h : Host) (w : World) (name : string)
        (pre core post : bytes) (path : string) :
  sys_platform h = "win32" ->
  subprocess_check_output h [Some "where"; Some name] = Return (pre ++ core ++ post)%list ->
  forallb is_space pre = true ->
  forallb is_space post = true ->
  starts_tight core -> starts_tight (rev core) ->
  bytes_decode Strict core = Return path ->
  os_path_exists h path = true ->
  resolves_via_path h name = Some path
  /\ path = string_of_list_byte core
  /\ (name = "gswin64c.exe" ->
      find_ghostscript h w =
      (Return (Some path),
       {| app := app w; trace := (trace w ++ [where_probe name])%list |})).
Proof.
  intros Hp Ho Hpre Hpost Hc Hr Hd He.
  pose proof (bytes_strip_padding pre core post Hpre Hpost Hc Hr) as Hs.
  split; [|split].
  - unfold resolves_via_path, probe_name.
    rewrite Hp, String.eqb_refl, Ho, Hs, Hd, He. reflexivity.
  - apply (bytes_decode_strict Strict). exact Hd.
  - intros ->. unfold find_ghostscript. cbn [gs_names find_in_path].
    rewrite Hp, String.eqb_refl.
    cbv beta iota delta [bind try_except check_output emit lift ret].
    rewrite Ho, Hs, Hd, He. reflexivity.
Qed.

Lemma where_line_is_the_path_witness :
  sys_platform windows_host = "win32"
  /\ subprocess_check_output windows_host [Some "where"; Some "gswin32c.exe"]
     = Return ([] ++ list_byte_of_string gs_on_path ++ CRLF)%list
  /\ resolves_via_path windows_host "gswin32c.exe" = Some gs_on_path.
Proof.
  split; [reflexivity|]. split; [reflexivity|].
  exact (proj1 (where_line_is_the_path windows_host startup_world "gswin32c.exe"
                  [] (list_byte_of_string gs_on_path) CRLF gs_on_path
                  eq_refl eq_refl eq_refl eq_refl eq_refl eq_refl eq_refl eq_refl)).
Defined.

(** ** A selection made while a job runs *)

(** X15: the success handler reads the input path when it runs, not when
    the job was started.  When another file is selected while an accepted job
    is running, the process has been launched on the old selection, and the
    success dialog reports as original size the size of the new selection. *)
Theorem selection_during_job_is_reported (h1 h2 h3 h4 : Host) (w : World)
        (cp : CompletedProcess) (filepath : string) (n m : Z) :
  let output_path := asksaveasfilename h1 (initialfile h1 (app w)) in
  let w1 := snd (start_compression_thread h1 w) in
  let w2 := snd (run_compression h2 w1) in
  let w3 := snd (select_input_file h3 filepath w2) in
  let w4 := snd (run_callback h4 call_on_compression_success w3) in
  let original_size := (float_of_Z n / float_of_Z MiB)%float in
  let compressed_size := (float_of_Z m / float_of_Z MiB)%float in
  accepted h1 (app w) = true ->
  subprocess_run h2 (command (app w1)) = Return cp ->
  filepath <> "" ->
  os_path_getsize h4 filepath = Return n ->
  os_path_getsize h4 output_path = Return m ->
  PrimFloat.eqb original_size 0 = false ->
  last (command (app w1)) None = Some (input_pdf_path (app w))
  /\ trace w4 =
     (trace w
      ++ [AskSaveAs (initialfile h1 (app w)); ThreadStart;
          Spawn (command (app w1)); After 0 call_on_compression_success;
          ShowInfo "Success"
            (success_text original_size compressed_size
               (100 - compressed_size / original_size * 100))])%list.
Proof.
  cbv zeta. intros Ha Hr Hf Hn Hm Hz.
  rewrite (accepted_start h1 w Ha) in *. cbn [snd] in *.
  split; [reflexivity|].
  rewrite (run_compression_exit_zero h2 _ cp Hr).
  rewrite select_input_file_result.
  apply String.eqb_neq in Hf. rewrite Hf.
  unfold ran. cbn [snd run_callback]. unfold on_compression_success.
  run_handler. cbn [app trace]. destruct w as [a t]. cbn [app trace] in *.
  cbn [input_pdf_path output_pdf_path set_input_pdf_path].
  change (output_pdf_path
            (after_start (asksaveasfilename h1 (initialfile h1 a)) a))
    with (asksaveasfilename h1 (initialfile h1 a)).
  rewrite Hn, Hm, !int_truediv_MiB. unfold float_truediv. rewrite Hz.
  cbn [fst snd app trace]. rewrite <- !app_assoc. reflexivity.
Qed.

Lemma selection_during_job_is_reported_witness :
  accepted saving_host (app selected_world) = true
  /\ "C:\docs\other.pdf" <> ""
  /\ os_path_getsize other_sizes_host "C:\docs\other.pdf" = Return (3 * MiB)
  /\ trace (snd (run_callback other_sizes_host call_on_compression_success
                   (snd (select_input_file windows_files "C:\docs\other.pdf"
                           (snd (run_compression windows_files
                                   (snd (start_compression_thread saving_host
                                                                  selected_world))))))))
     = [AskSaveAs (initialfile saving_host (app selected_world)); ThreadStart;
        Spawn (command (app (snd (start_compression_thread saving_host selected_world))));
        After 0 call_on_compression_success;
        ShowInfo "Success"
          ("PDF compressed successfully!" ++ LF ++ LF ++
           "Original Size: 3.00 MB" ++ LF ++
           "Compressed Size: 4.00 MB" ++ LF ++
           "Reduction: -33.3%")].
Proof.
  split; [reflexivity|].
  assert (Hf : "C:\docs\other.pdf" <> "") by discriminate.
  split; [exact Hf|]. split; [reflexivity|].
  rewrite (proj2 (selection_during_job_is_reported
                    saving_host windows_files windows_files other_sizes_host
                    selected_world _ "C:\docs\other.pdf" (3 * MiB) (4 * MiB)
                    eq_refl eq_refl Hf eq_refl eq_refl eq_refl)).
  vm_compute. reflexivity.
Defined.
